(** * The experiment wizard of chaostoolkit ([chaostoolkit/cli.py])

    A shallow embedding of the interactive part of the command line tool:
    [add_activities], the recursive selection loop, and [init], which calls
    it once per section of the experiment.  The terminal is modelled as the
    list of lines the operator will type and the list of things shown so
    far; the three entry points of the [click] library that the code calls
    ([click.echo], [click.prompt], [click.confirm]) are modelled on top of
    it, as click 6.7 implements them. *)

From Stdlib Require Import ZArith Ascii String List Bool Lia.
From stdpp Require Import base option list gmap strings pretty.

Local Open Scope string_scope.
Local Open Scope nat_scope.
Local Open Scope list_scope.
Local Open Scope stdpp_scope.

(** ** Documents *)

(** JSON values, as [json.loads] gives them to the code.  Numbers are the
    integers: a number with a fraction would make click guess its FLOAT
    type for the prompt, which no property below depends on. *)
#[warnings="-register-all"] Inductive json : Type :=
| JNull
| JBool (b : bool)
| JInt (z : Z)
| JStr (s : string)
| JList (l : list json)
| JDict (d : list (string * json)).

(** One entry of an activity's ["arguments"] list.  [arg_default] is [None]
    when the entry has no ["default"] key, and [Some JNull] when the key is
    there with the value [null]. *)
Record Argument := {
  arg_name : string;
  arg_default : option json
}.

(** One entry of the discovery's ["activities"] list.  The keys the code
    reads without a guard (["name"], ["type"], ["mod"]) are fields; ["doc"]
    is read with [.get] and may be missing; ["arguments"] is read with
    [.get("arguments", [])], so a missing key is the empty list. *)
Record Activity := {
  a_name : string;
  a_type : string;
  a_mod : string;
  a_doc : option string;
  a_arguments : list Argument
}.

(** The discovery document.  A loaded document has keys, so the tests
    [if discovery:] of [init] hold exactly when a document was loaded. *)
Record Discovery := {
  activities : list Activity
}.

(** The ["provider"] entry of an activity of the experiment. *)
Record Provider := {
  p_type : string;
  p_module : string;
  p_func : string;
  p_arguments : gmap string json
}.

(** An activity of the experiment, as [add_activities] builds it.
    [s_tolerance] is [None] when the dict has no ["tolerance"] key. *)
Record SelectedActivity := {
  s_type : string;
  s_name : string;
  s_tolerance : option string;
  s_provider : Provider
}.

(** The ["steady-state-hypothesis"] entry; [h_probes] is [None] when the
    dict has no ["probes"] key. *)
Record Hypo := {
  h_title : string;
  h_probes : option (list SelectedActivity)
}.

(** The experiment [init] returns; [e_hypothesis] and [e_method] are [None]
    when the dict has no ["steady-state-hypothesis"], no ["method"] key. *)
Record Experiment := {
  e_version : string;
  e_title : string;
  e_description : string;
  e_tags : list string;
  e_rollbacks : list SelectedActivity;
  e_hypothesis : option Hypo;
  e_method : option (list SelectedActivity)
}.

(** ** The terminal and the pool *)

Inductive event : Type :=
| Echo (text : string)                         (* click.echo *)
| Paged (text : string)                        (* click.echo_via_pager *)
| Asked (text : string) (line : option string).
  (* a prompt was shown and the operator typed [line]; [None]: end of input *)

(** [stdin]: the lines the operator types, in order.  [screen]: what was
    shown, newest first.  [pool]: the list object that [add_activities]
    receives as [pool] and appends to in place. *)
Record world := World {
  stdin : list string;
  screen : list event;
  pool : list SelectedActivity
}.

(** [IndexError]: a list index out of range.  [Abort]: what click raises
    when the input ends during a prompt.  These are the exceptions the
    model has: a [KeyError] needs an entry without one of the keys that
    [Activity] makes fields, a [RecursionError] the limit of the
    interpreter, an interrupt a key outside the lines typed; none of them
    is modelled, and no statement below says that a call ends in no other
    way. *)
Inductive exn : Type := IndexError | Abort.

(** How a piece of code ends: it falls through with a value, it executes
    [return], it raises, or the recursion budget of the model is used up
    (which [add_activities_total] below excludes). *)
Inductive outcome (A : Type) : Type :=
| Normal (a : A)
| Returned
| Raised (e : exn)
| Starved.
Arguments Normal {A} a.
Arguments Returned {A}.
Arguments Raised {A} e.
Arguments Starved {A}.

Definition IO (A : Type) : Type := world -> outcome A * world.

Definition ret {A} (a : A) : IO A := fun w => (Normal a, w).

Definition bind {A B} (m : IO A) (k : A -> IO B) : IO B := fun w =>
  match m w with
  | (Normal a, w') => k a w'
  | (Returned, w') => (Returned, w')
  | (Raised e, w') => (Raised e, w')
  | (Starved, w') => (Starved, w')
  end.

Notation "x <- m ;; k" := (bind m (fun x => k))
  (at level 100, m at level 99, k at level 200, right associativity).
Notation "m ;;; k" := (bind m (fun _ => k))
  (at level 100, k at level 200, right associativity).

(** The [return] statement (of a function that returns nothing). *)
Definition py_return {A} : IO A := fun w => (Returned, w).

Definition raise {A} (e : exn) : IO A := fun w => (Raised e, w).

Definition starve {A} : IO A := fun w => (Starved, w).

(** The boundary of a [def]: a [return] inside ends the call normally. *)
Definition def (body : IO unit) : IO unit := fun w =>
  match body w with
  | (Returned, w') => (Normal tt, w')
  | r => r
  end.

Definition show (e : event) : IO unit := fun w =>
  (Normal tt, World (stdin w) (e :: screen w) (pool w)).

(** [pool.append(activity)] *)
Definition pool_append (a : SelectedActivity) : IO unit := fun w =>
  (Normal tt, World (stdin w) (screen w) (pool w ++ [a])).

(** Binding a fresh list to the name that is passed as [pool], and reading
    the list back after the call. *)
Definition pool_new : IO unit := fun w =>
  (Normal tt, World (stdin w) (screen w) []).

Definition pool_get : IO (list SelectedActivity) := fun w =>
  (Normal (pool w), w).

(** ** Text, as Python reads it *)

(** A text of the model is the Python [str] that has the same characters,
    character [n] of Rocq standing for the code point [n]: the texts of the
    model are those of code points below 256. *)

(** [str.isspace] of one character: the ASCII blanks and separators, and
    the two blanks of the Latin-1 block (U+0085, U+00A0). *)
Definition is_space (c : ascii) : bool :=
  let n := nat_of_ascii c in
  (((9 <=? n) && (n <=? 13)) || ((28 <=? n) && (n <=? 32))
   || (n =? 133) || (n =? 160))%nat.

Definition is_digit (c : ascii) : bool :=
  let n := nat_of_ascii c in ((48 <=? n) && (n <=? 57))%nat.

Definition digit_value (c : ascii) : Z := Z.of_nat (nat_of_ascii c - 48).

(** [str.lower] of one character: the capital letters of ASCII and of
    the Latin-1 block (U+00C0 to U+00DE, the sign U+00D7 apart). *)
Definition lower_char (c : ascii) : ascii :=
  let n := nat_of_ascii c in
  if (((65 <=? n) && (n <=? 90))
      || ((192 <=? n) && (n <=? 222) && negb (n =? 215)))%nat
  then ascii_of_nat (n + 32) else c.

(** [str.lower] and [str.strip]. *)
Fixpoint lower (s : string) : string :=
  match s with
  | EmptyString => EmptyString
  | String c s' => String (lower_char c) (lower s')
  end.

Fixpoint lstrip (s : string) : string :=
  match s with
  | EmptyString => EmptyString
  | String c s' => if is_space c then lstrip s' else s
  end.

Fixpoint rstrip (s : string) : string :=
  match s with
  | EmptyString => EmptyString
  | String c s' =>
      let t := rstrip s' in
      if is_space c && String.eqb t "" then "" else String c t
  end.

Definition strip (s : string) : string := rstrip (lstrip s).

(** The blanks [int] skips around a literal: tab to carriage return and
    the space, and the two blanks of the Latin-1 block, which [int] turns
    into spaces first.  The separators U+001C to U+001F are not among
    them. *)
Definition int_space (c : ascii) : bool :=
  let n := nat_of_ascii c in
  (((9 <=? n) && (n <=? 13)) || (n =? 32) || (n =? 133) || (n =? 160))%nat.

Fixpoint int_lstrip (s : string) : string :=
  match s with
  | EmptyString => EmptyString
  | String c s' => if int_space c then int_lstrip s' else s
  end.

Fixpoint int_rstrip (s : string) : string :=
  match s with
  | EmptyString => EmptyString
  | String c s' =>
      let t := int_rstrip s' in
      if int_space c && String.eqb t "" then "" else String c t
  end.

(** The digits of an integer literal, single underscores allowed between
    digits; [seen] tells whether the previous character was a digit. *)
Fixpoint py_digits (s : string) (acc : Z) (seen : bool) : option Z :=
  match s with
  | EmptyString => if seen then Some acc else None
  | String c s' =>
      if is_digit c then py_digits s' (10 * acc + digit_value c)%Z true
      else if (c =? "_")%char && seen then py_digits s' acc false
      else None
  end.

(** The integer literals of [int]: blanks around, an optional sign, then
    decimal digits.  No character of the model beyond ASCII is a decimal
    digit. *)
Definition py_literal (text : string) : option Z :=
  match int_rstrip (int_lstrip text) with
  | String "-" s' => Z.opp <$> py_digits s' 0%Z false
  | String "+" s' => py_digits s' 0%Z false
  | s => py_digits s 0%Z false
  end.

Fixpoint count_digits (s : string) : N :=
  match s with
  | EmptyString => 0%N
  | String c s' => ((if is_digit c then 1 else 0) + count_digits s')%N
  end.

(** The default of [sys.int_max_str_digits]. *)
Definition max_str_digits : N := 4300%N.

(** [int(text)], as CPython 3.11 and later have it: the value of the
    literal, refused when it has more digits than the limit (earlier
    versions have no limit and read every literal).  [None] stands for the
    [ValueError]. *)
Definition py_int (text : string) : option Z :=
  if (max_str_digits <? count_digits text)%N then None else py_literal text.

Definition newline : string := String (ascii_of_nat 10) "".

(** [sep.join(parts)] *)
Fixpoint join (sep : string) (parts : list string) : string :=
  match parts with
  | [] => ""
  | [p] => p
  | p :: rest => p +:+ sep +:+ join sep rest
  end.

(** ** The click library *)

Definition click_echo (text : string) : IO unit := show (Echo text).

Definition click_echo_via_pager (text : string) : IO unit := show (Paged text).

(** The conversions [click.prompt] applies to a line: the text kept as it
    is, or read as an integer.  [inl] carries the message of the usage
    error. *)
Definition STRING (line : string) : string + string := inr line.

Definition INT (line : string) : string + Z :=
  match py_int line with
  | Some z => inr z
  | None => inl (line +:+ " is not a valid integer")
  end.

(** The loop of [click.prompt]: read a line; an empty line gives the
    default when there is one and asks again when there is none; any other
    line goes through the conversion, whose failure is printed before the
    prompt asks again.  The end of the input raises [Abort]. *)
Fixpoint prompt_loop {A} (text : string) (default : option A)
    (value_proc : string -> string + A)
    (lines : list string) (shown : list event)
    : outcome A * list string * list event :=
  match lines with
  | [] => (Raised Abort, [], Asked text None :: shown)
  | line :: rest =>
      let shown' := Asked text (Some line) :: shown in
      if String.eqb line "" then
        match default with
        | Some d => (Normal d, rest, shown')
        | None => prompt_loop text default value_proc rest shown'
        end
      else
        match value_proc line with
        | inr v => (Normal v, rest, shown')
        | inl msg =>
            prompt_loop text default value_proc rest
              (Echo ("Error: " +:+ msg) :: shown')
        end
  end.

(** [click.prompt(text, default=default, type=...)], the conversion being
    the one click derives from [type] and [default]. *)
Definition click_prompt {A} (text : string) (default : option A)
    (value_proc : string -> string + A) : IO A := fun w =>
  match prompt_loop text default value_proc (stdin w) (screen w) with
  | (r, lines, shown) => (r, World lines shown (pool w))
  end.

(** The loop of [click.confirm], with its [default=False]: the line is
    lowered and stripped; y, yes, n, no answer; the empty line is the
    default; anything else is reported and asked again. *)
Fixpoint confirm_loop (text : string) (lines : list string)
    (shown : list event) : outcome bool * list string * list event :=
  match lines with
  | [] => (Raised Abort, [], Asked text None :: shown)
  | line :: rest =>
      let shown' := Asked text (Some line) :: shown in
      let value := strip (lower line) in
      if String.eqb value "y" || String.eqb value "yes" then (Normal true, rest, shown')
      else if String.eqb value "n" || String.eqb value "no" then (Normal false, rest, shown')
      else if String.eqb value "" then (Normal false, rest, shown')
      else confirm_loop text rest (Echo "Error: invalid input" :: shown')
  end.

Definition click_confirm (text : string) : IO bool := fun w =>
  match confirm_loop text (stdin w) (screen w) with
  | (r, lines, shown) => (r, World lines shown (pool w))
  end.

(** The conversion click guesses from the default of a prompt without a
    [type]: INT for an integer default, STRING for every other one and for
    no default. *)
Definition convert_type (default : option json) (line : string)
    : string + json :=
  match default with
  | Some (JInt _) =>
      match INT line with inr z => inr (JInt z) | inl msg => inl msg end
  | _ => inr (JStr line)
  end.

(** ** Python lists *)

(** [l[i]]: a negative index counts from the end; an index outside the
    list raises [IndexError]. *)
Definition py_index {A} (l : list A) (i : Z) : IO A :=
  let n := Z.of_nat (length l) in
  let j := if (i <? 0)%Z then (i + n)%Z else i in
  if (0 <=? j)%Z && (j <? n)%Z then
    match l !! Z.to_nat j with
    | Some x => ret x
    | None => raise IndexError
    end
  else raise IndexError.

(** [for x in xs: acc = body(x, acc)], with [continue] being a body that
    gives [acc] back. *)
Fixpoint for_each {A S} (xs : list A) (body : A -> S -> IO S) (acc : S)
    : IO S :=
  match xs with
  | [] => ret acc
  | x :: rest => acc' <- body x acc ;; for_each rest body acc'
  end.

(** ** [add_activities] *)

(** The list shown to the operator (lines 234 to 237): one line per
    candidate, numbered from 1. *)
Definition menu (activities : list (string * Activity)) : string :=
  join newline
    (imap (fun idx '(name, _) => pretty (idx + 1)%nat +:+ ") " +:+ name)
       activities).

(** [arg_name in ("secrets", "configuration")] *)
Definition is_reserved (name : string) : bool :=
  String.eqb name "secrets" || String.eqb name "configuration".

(** The default handed to the prompt (lines 276 to 280): the declared
    one, the empty string standing in for a declared [null]. *)
Definition display_default (arg : Argument) : option json :=
  match arg_default arg with
  | Some JNull => Some (JStr "")
  | Some d => Some d
  | None => None
  end.

(** The second look at the default (lines 289 to 292): the empty string
    read for a parameter whose declared default is [null] becomes [null]. *)
Definition restore_null (arg : Argument) (arg_value : json) : json :=
  match arg_default arg with
  | Some JNull =>
      match arg_value with
      | JStr s => if String.eqb s "" then JNull else arg_value
      | _ => arg_value
      end
  | _ => arg_value
  end.

(** The body of the loop over the declared arguments (lines 268 to 294);
    [arguments] is [activity["provider"]["arguments"]]. *)
Definition elicit_argument (arg : Argument) (arguments : gmap string json)
    : IO (gmap string json) :=
  if is_reserved (arg_name arg) then ret arguments
  else
    let question := "Argument's value for '" +:+ arg_name arg +:+ "'" in
    arg_value <- click_prompt question (display_default arg)
                   (convert_type (display_default arg)) ;;
    ret (<[arg_name arg := restore_null arg arg_value]> arguments).

Section Body.

(** The function itself, for the two recursive calls; both pass
    [activities] and [pool] and leave [with_tolerance] to its default. *)
Variable self : list (string * Activity) -> bool -> IO unit.

(** Lines 244 to 300: what happens once an entry has been picked. *)
Definition use_selected (activities : list (string * Activity))
    (with_tolerance : bool) (selected : Activity) : IO unit :=
  match a_doc selected with
  | Some selected_doc =>
      if String.eqb selected_doc "" then ret tt else click_echo selected_doc
  | None => ret tt
  end ;;;
  use <- click_confirm
           ("Do you want to use this " +:+ a_type selected +:+ "?") ;;
  (if negb use then
     another <- click_confirm "Do you want to select another activity?" ;;
     (if negb another then py_return else ret tt) ;;;
     self activities false
   else ret tt) ;;;
  tolerance <- (if with_tolerance then
                  tolerance_value <-
                    click_prompt "What is the tolerance for this probe?"
                      None STRING ;;
                  ret (Some tolerance_value)
                else ret None) ;;
  arguments <- for_each (a_arguments selected) elicit_argument ∅ ;;
  pool_append {|
    s_type := a_type selected;
    s_name := a_name selected;
    s_tolerance := tolerance;
    s_provider := {|
      p_type := "python";
      p_module := a_mod selected;
      p_func := a_name selected;
      p_arguments := arguments |} |} ;;;
  another <- click_confirm "Do you want to select another activity?" ;;
  (if negb another then py_return else ret tt) ;;;
  self activities false.

(** Lines 240 to 243: the escape, then the lookup of the entry. *)
Definition pick (activities : list (string * Activity))
    (with_tolerance : bool) (activity_index : Z) : IO unit :=
  (if (activity_index =? 0)%Z then py_return else ret tt) ;;;
  entry <- py_index activities (activity_index - 1) ;;
  use_selected activities with_tolerance entry.2.

(** Lines 238 to 243: the menu prompt and what follows it. *)
Definition ask_and_pick (activities : list (string * Activity))
    (with_tolerance : bool) : IO unit :=
  activity_index <- click_prompt "Activity (0 to escape)" None INT ;;
  pick activities with_tolerance activity_index.

(** The whole body, lines 216 to 300.  Every key of [base_activity] is
    overwritten before the append, so the copy is not modelled. *)
Definition add_activities_body (activities : list (string * Activity))
    (with_tolerance : bool) : IO unit :=
  let echo :=
    if (10 <? length activities)%nat then click_echo_via_pager
    else click_echo in
  click_echo "Add an activity to your method" ;;;
  echo (menu activities) ;;;
  ask_and_pick activities with_tolerance.

End Body.

(** [add_activities] with a budget of nested calls. *)
Fixpoint add_activities_fuel (fuel : nat)
    (activities : list (string * Activity)) (with_tolerance : bool)
    : IO unit :=
  match fuel with
  | O => starve
  | S fuel' =>
      def (add_activities_body (add_activities_fuel fuel')
             activities with_tolerance)
  end.

(** [add_activities(activities, pool, with_tolerance)].  Every call reads
    at least one line before it calls itself, so one more call than there
    are lines is a budget that is never used up ([add_activities_total],
    [add_activities_unfold]).  The recursion limit of the Python
    interpreter is not modelled. *)
Definition add_activities (activities : list (string * Activity))
    (with_tolerance : bool) : IO unit := fun w =>
  add_activities_fuel (S (length (stdin w))) activities with_tolerance w.

(** ** [init] *)

(** Lines 185 to 188: the candidates of the hypothesis, gathered by the
    loop with its [append]. *)
Definition probe_candidates (discovery : Discovery)
    : list (string * Activity) :=
  fold_left
    (fun acc a =>
       if String.eqb (a_type a) "probe" then acc ++ [(a_name a, a)] else acc)
    (activities discovery) [].

(** Line 195: the candidates of the method. *)
Definition method_candidates (discovery : Discovery)
    : list (string * Activity) :=
  map (fun a => (a_name a, a)) (activities discovery).

(** [init], from the first prompt to the returned document; [discovery] is
    [None] when there is no file at the discovery path.  Reading and
    writing the files and the log lines are left out. *)
Definition init (discovery : option Discovery) : IO Experiment :=
  title <- click_prompt "Experiment's title" None STRING ;;
  define <- click_confirm
              "Do you want to define a steady state hypothesis right now?" ;;
  hypothesis <-
    (if define then
       hypo_title <- click_prompt "Hypothesis's title" None STRING ;;
       probes <-
         match discovery with
         | Some d =>
             pool_new ;;;
             add_activities (probe_candidates d) true ;;;
             probes <- pool_get ;;
             ret (Some probes)
         | None => ret None
         end ;;
       ret (Some {| h_title := hypo_title; h_probes := probes |})
     else ret None) ;;
  method <-
    match discovery with
    | Some d =>
        pool_new ;;;
        add_activities (method_candidates d) false ;;;
        method <- pool_get ;;
        ret (Some method)
    | None => ret None
    end ;;
  ret {|
    e_version := "1.0.0";
    e_title := title;
    e_description := "N/A";
    e_tags := [];
    e_rollbacks := [];
    e_hypothesis := hypothesis;
    e_method := method |}.

(** ** Sample documents *)

(** A session: the lines typed, an empty screen, an empty pool. *)
Definition session (lines : list string) : world := World lines [] [].

Definition probe_one : Activity :=
  {| a_name := "probe-one"; a_type := "probe"; a_mod := "chaosdemo.probes";
     a_doc := None; a_arguments := [] |}.

Definition kill_action : Activity :=
  {| a_name := "kill"; a_type := "action"; a_mod := "chaosdemo.actions";
     a_doc := Some "Kill the process.";
     a_arguments :=
       [ {| arg_name := "timeout"; arg_default := Some (JInt 30) |};
         {| arg_name := "secrets"; arg_default := Some JNull |};
         {| arg_name := "target"; arg_default := Some JNull |} ] |}.

Definition demo : Discovery := {| activities := [probe_one; kill_action] |}.

(** ** Vocabulary of the properties *)

(** The screen once the menu of a call is up (lines 232 to 237). *)
Definition menu_shown (activities : list (string * Activity))
    (shown : list event) : list event :=
  (if 10 <? length activities then Paged (menu activities)
   else Echo (menu activities))
  :: Echo "Add an activity to your method" :: shown.

(** A text of ASCII characters only. *)
Fixpoint ascii_text (s : string) : bool :=
  match s with
  | EmptyString => true
  | String c s' => (nat_of_ascii c <? 128)%nat && ascii_text s'
  end.

(** The confirmations of use the operator gave, read off the screen: the
    questions of line 249 answered with y or yes. *)
Definition says_yes (line : string) : bool :=
  let value := strip (lower line) in
  String.eqb value "y" || String.eqb value "yes".

Fixpoint accept_confirmations (shown : list event) : nat :=
  match shown with
  | [] => 0
  | Asked text (Some line) :: rest =>
      (if String.prefix "Do you want to use this " text && says_yes line
       then 1 else 0) + accept_confirmations rest
  | _ :: rest => accept_confirmations rest
  end.

(** The two kinds of the spec, told apart by the ["type"] of the entry. *)
Inductive kind : Type := observation | action.

Global Instance kind_eq_dec : EqDecision kind.
Proof. solve_decision. Defined.

Definition kind_of (a : Activity) : kind :=
  if String.eqb (a_type a) "probe" then observation else action.

(** The contract of the spec's catalog adapter, in its words: the
    discovery's list filtered by kind, in the discovery's order, each entry
    paired with its display name. *)
Definition extract_candidates (discovery : Discovery) (kind_filter : kind)
    : list (string * Activity) :=
  (fun a => (a_name a, a)) <$>
    filter (fun a => kind_of a = kind_filter) (activities discovery).

(** Arguments that hold neither reserved name, and an activity with such
    arguments. *)
Definition no_reserved (arguments : gmap string json) : Prop :=
  arguments !! "secrets" = None ∧ arguments !! "configuration" = None.

Definition unreserved (a : SelectedActivity) : Prop :=
  no_reserved (p_arguments (s_provider a)).

(** From [w] to [w']: no line was put back, and the pool was only appended
    to, with activities free of the reserved names. *)
Definition grows (w w' : world) : Prop :=
  length (stdin w') ≤ length (stdin w) ∧
  ∃ added, pool w' = pool w ++ added ∧ Forall unreserved added.

(** [m], run in [w], stays within its budget, makes the world grow, and
    when it falls through with [a] in [w'], [Q a w'] holds. *)
Definition safe {A} (m : IO A) (w : world) (Q : A → world → Prop) : Prop :=
  (m w).1 ≠ Starved ∧ grows w (m w).2 ∧
  ∀ a, (m w).1 = Normal a → Q a (m w).2.

Definition anything {A} : A → world → Prop := fun _ _ => True.

(** The lines left are fewer than [n]. *)
Definition below (n : nat) {A} : A → world → Prop :=
  fun _ w' => length (stdin w') < n.

(** ** Vocabulary of the further properties *)

(** What [click.prompt] can give back: the default, or the conversion of
    a line that is not empty. *)
Definition answered {A} (default : option A)
    (value_proc : string → string + A) (v : A) : Prop :=
  default = Some v ∨ ∃ line, line ≠ "" ∧ value_proc line = inr v.

(** What the loop over the arguments can store for [arg]: its declared
    default, or the conversion of a line that is not empty. *)
Definition stored_for (arg : Argument) (v : json) : Prop :=
  arg_default arg = Some v ∨
  ∃ line, line ≠ "" ∧ convert_type (display_default arg) line = inr v.

(** The names the loop asks for. *)
Definition asked_names (declared : list Argument) : gset string :=
  list_to_set
    (arg_name <$> filter (fun arg => is_reserved (arg_name arg) = false) declared).

(** [arguments] is what the loop over [declared] leaves: its keys are the
    declared names that are not reserved, and every value was stored for a
    declared argument of that name. *)
Definition elicited (declared : list Argument)
    (arguments : gmap string json) : Prop :=
  dom arguments = asked_names declared ∧
  ∀ k v, arguments !! k = Some v →
         ∃ arg, arg ∈ declared ∧ arg_name arg = k ∧ stored_for arg v.

(** [a] was built by lines 256 to 294 from an entry of [activities], in a
    call whose [with_tolerance] is [false] when [a] has no tolerance. *)
Definition built_from (activities : list (string * Activity))
    (with_tolerance : bool) (a : SelectedActivity) : Prop :=
  ∃ entry,
    entry ∈ activities ∧
    s_type a = a_type entry.2 ∧
    s_name a = a_name entry.2 ∧
    p_type (s_provider a) = "python" ∧
    p_module (s_provider a) = a_mod entry.2 ∧
    p_func (s_provider a) = a_name entry.2 ∧
    elicited (a_arguments entry.2) (p_arguments (s_provider a)) ∧
    ∀ t, s_tolerance a = Some t → with_tolerance = true ∧ t ≠ "".

(** From [w] to [w']: no line was put back, and the pool was only appended
    to, with activities that satisfy [P]. *)
Definition grows_by (P : SelectedActivity → Prop) (w w' : world) : Prop :=
  length (stdin w') ≤ length (stdin w) ∧
  ∃ added, pool w' = pool w ++ added ∧ Forall P added.

(** [m], run in [w], stays within its budget and makes the world grow by
    [P]; it raises [Abort] only with the input used up and [IndexError]
    only in a world that satisfies [E]; and when it falls through with [a]
    in [w'], [Q a w'] holds. *)
Definition tracked (P : SelectedActivity → Prop) (E : world → Prop) {A}
    (m : IO A) (w : world) (Q : A → world → Prop) : Prop :=
  (m w).1 ≠ Starved ∧ grows_by P w (m w).2 ∧
  ((m w).1 = Raised Abort → stdin (m w).2 = []) ∧
  ((m w).1 = Raised IndexError → E (m w).2) ∧
  ∀ a, (m w).1 = Normal a → Q a (m w).2.

(** The lines [click.confirm] takes for a no: n, no, and the empty line,
    which stands for the default. *)
Definition says_no (line : string) : bool :=
  let value := strip (lower line) in
  String.eqb value "n" || String.eqb value "no" || String.eqb value "".

(** The lines of the menu, one per candidate. *)
Definition menu_lines (activities : list (string * Activity)) : list string :=
  imap (fun idx '(name, _) => pretty (idx + 1)%nat +:+ ") " +:+ name)
    activities.

(** The screen after a candidate was picked (lines 238 to 246): the menu,
    the prompt with its answer, and the documentation of the candidate
    when it has one. *)
Definition picked_shown (activities : list (string * Activity))
    (line : string) (selected : Activity) (shown : list event) : list event :=
  let asked :=
    Asked "Activity (0 to escape)" (Some line) :: menu_shown activities shown in
  match a_doc selected with
  | Some selected_doc =>
      if String.eqb selected_doc "" then asked else Echo selected_doc :: asked
  | None => asked
  end.

(** The activity that lines 256 to 266 and 294 build. *)
Definition activity_of (selected : Activity) (tolerance : option string)
    (arguments : gmap string json) : SelectedActivity :=
  {| s_type := a_type selected;
     s_name := a_name selected;
     s_tolerance := tolerance;
     s_provider :=
       {| p_type := "python";
          p_module := a_mod selected;
          p_func := a_name selected;
          p_arguments := arguments |} |}.

Definition probe_one_selected : SelectedActivity :=
  activity_of probe_one (Some "200") ∅.

(** ** The commands [run], [validate], [discover] and [init] *)

(** The log records and the files, which the commands read and write.
    [log] holds the records given to the logger, newest first; the [cli]
    group decides where they go (the screen, and a log file unless
    [--no-log-file]), which is not modelled.  [files] holds the regular
    files other than that log file, path to text; no statement below says
    which files a command leaves as they were. *)
Inductive level : Type := DEBUG | INFO | ERROR.

Record system := System {
  files : gmap string string;
  log : list (level * string)
}.

(** What [ensure_experiment_is_valid] does: it returns, it raises a
    [ChaosException] with a message, or it raises something else. *)
Inductive verdict : Type :=
| Valid
| Invalid (message : string)
| Broken.

(** The functions of other packages that the commands call, and the two
    directions of the [json] module on the documents of this file.  [None]
    stands for a raised exception.  [loads_discovery] gives [Some None] for
    a document that Python takes for false (an empty object, [null]).
    [run_experiment] executes the activities of the experiment: it is given
    the files and gives back the journal and the files as it leaves them.
    What [disco] does to the world outside is not modelled. *)
Record library := Library {
  Journal : Type;
  format_filename : string → string;
  load_experiment : gmap string string → string → option (gmap string json);
  ensure_experiment_is_valid : gmap string json → verdict;
  run_experiment :
    gmap string string → gmap string json →
    option (Journal * gmap string string);
  dump_journal : Journal → string;
  disco : string → bool → bool → option Discovery;
  dumps_discovery : Discovery → string;
  loads_discovery : string → option (option Discovery);
  dumps_experiment : Experiment → string
}.

(** How a command ends: it returns, it leaves through [sys.exit], or an
    exception goes through it ([Some e]: one of the wizard; [None]: one of
    a function of another package). *)
Inductive ending (A : Type) : Type :=
| Done (a : A)
| Exit (code : Z)
| Uncaught (e : option exn).
Arguments Done {A} a.
Arguments Exit {A} code.
Arguments Uncaught {A} e.

Definition logged (l : level) (message : string) (s : system) : system :=
  System (files s) ((l, message) :: log s).

Definition written (path text : string) (s : system) : system :=
  System (<[path := text]> (files s)) (log s).

(** [run(path, journal_path, dry, no_validation)], lines 80 to 98. *)
Definition run (lib : library) (path journal_path : string)
    (dry no_validation : bool) (s : system) : ending unit * system :=
  let s := logged DEBUG "Running command 'run'" s in
  match load_experiment lib (files s) (format_filename lib path) with
  | None => (Uncaught None, s)
  | Some experiment =>
      let execute (s : system) :=
        let experiment := <["dry" := JBool dry]> experiment in
        match run_experiment lib (files s) experiment with
        | None => (Uncaught None, s)
        | Some (journal, fs) =>
            (Done tt,
             written journal_path (dump_journal lib journal)
               (System fs (log s)))
        end in
      if negb no_validation then
        match ensure_experiment_is_valid lib experiment with
        | Valid => execute s
        | Invalid x => (Exit 1, logged DEBUG x (logged ERROR x s))
        | Broken => (Uncaught None, s)
        end
      else execute s
  end.


(** [discover(package, discovery_path, no_system_info, no_install)], lines
    125 to 137.  The function has no [return]: it gives [None]. *)
Definition discover (lib : library) (package discovery_path : string)
    (no_system_info no_install : bool) (s : system) : ending unit * system :=
  let s := logged DEBUG "Running command 'discover'" s in
  match disco lib package (negb no_system_info) (negb no_install) with
  | None => (Uncaught None, s)
  | Some discovery =>
      (Done tt,
       logged INFO ("Discovery outcome saved in " +:+ discovery_path)
         (written discovery_path (dumps_discovery lib discovery) s))
  end.

Definition ending_of {A} (r : outcome A) : ending A :=
  match r with
  | Normal a => Done a
  | Raised e => Uncaught (Some e)
  | Returned | Starved => Uncaught None
  end.

(** The command [init(discovery_path, experiment_path)], lines 147 to 204:
    the discovery is read when the path is not empty and the file is
    there; then the wizard [init] above runs; the experiment is written
    when the wizard has returned. *)
Definition init_command (lib : library)
    (discovery_path experiment_path : string) (s : system) (w : world)
    : ending Experiment * system * world :=
  let s := logged INFO "Let's build a new experiment"
             (logged DEBUG "Running command 'init'" s) in
  let wizard (discovery : option Discovery) (s : system) :=
    match init discovery w with
    | (Normal base_experiment, w') =>
        (Done base_experiment,
         logged INFO
           ("Experiment created and saved in '" +:+ experiment_path +:+ "'")
           (written experiment_path (dumps_experiment lib base_experiment) s),
         w')
    | (r, w') => (ending_of r, s, w')
    end in
  let found :=
    if negb (String.eqb discovery_path "") then files s !! discovery_path
    else None in
  match found with
  | Some text =>
      match loads_discovery lib text with
      | None => (Uncaught None, s, w)
      | Some discovery => wizard discovery s
      end
  | None =>
      wizard None
        (logged INFO "No discovery was found, let's create an empty experiment" s)
  end.

(** An instance of the library, for the examples: a file with the text
    [t] holds the experiment [{"dry": true, "title": t}], which is valid
    unless its title is "broken"; the journal tells whether the run was
    dry, and a run that is not dry leaves a file of its own; the discovery
    is [demo], written as the text "demo". *)
Definition sample_library : library :=
  {| Journal := string;
     format_filename := fun path => path;
     load_experiment := fun fs path =>
       match fs !! path with
       | Some text =>
           Some {[ "dry" := JBool true; "title" := JStr text ]}
       | None => None
       end;
     ensure_experiment_is_valid := fun experiment =>
       match experiment !! "title" with
       | Some (JStr "broken") => Invalid "no method"
       | _ => Valid
       end;
     run_experiment := fun fs experiment =>
       match experiment !! "dry" with
       | Some (JBool true) => Some ("dry run", fs)
       | _ => Some ("run", <["trace.txt" := "ran"]> fs)
       end;
     dump_journal := fun journal => journal;
     disco := fun package _ _ => Some demo;
     dumps_discovery := fun _ => "demo";
     loads_discovery := fun text =>
       if String.eqb text "demo" then Some (Some demo) else None;
     dumps_experiment := fun e => e_title e |}.

Definition sample_system : system :=
  System {[ "good.json" := "fine"; "bad.json" := "broken" ]} [].

(** * Properties *)

(** ** What every step of a session keeps *)

Lemma grows_refl w : grows w w.
Proof.
  split; [lia | exists []]. by rewrite app_nil_r.
Qed.

Lemma grows_trans w1 w2 w3 : grows w1 w2 → grows w2 w3 → grows w1 w3.
Proof.
  intros [H1 (a1 & E1 & F1)] [H2 (a2 & E2 & F2)]. split; [lia |].
  exists (a1 ++ a2). rewrite E2, E1, app_assoc. split; [done |].
  by apply Forall_app.
Qed.

Lemma grows_length w w' : grows w w' → length (stdin w') ≤ length (stdin w).
Proof. by intros [H _]. Qed.

Lemma safe_ret {A} (a : A) w (Q : A → world → Prop) :
  Q a w → safe (ret a) w Q.
Proof.
  intros H. unfold safe. split_and!; simpl; [done | apply grows_refl |].
  intros a' [= <-]. done.
Qed.

Lemma safe_return {A} w (Q : A → world → Prop) : safe py_return w Q.
Proof. unfold safe. split_and!; simpl; [done | apply grows_refl | done]. Qed.

Lemma safe_raise {A} e w (Q : A → world → Prop) : safe (raise e) w Q.
Proof. unfold safe. split_and!; simpl; [done | apply grows_refl | done]. Qed.

Lemma safe_bind {A B} (m : IO A) (k : A → IO B) w Q1 (Q2 : B → world → Prop) :
  safe m w Q1 →
  (∀ a w1, grows w w1 → Q1 a w1 → safe (k a) w1 Q2) →
  safe (bind m k) w Q2.
Proof.
  unfold safe, bind. intros (Hs & Hg & Hq) Hk.
  destruct (m w) as [[a | | e |] w1]; simpl in *;
    [| by split_and! .. ].
  destruct (Hk a w1 Hg (Hq a eq_refl)) as (Hs' & Hg' & Hq').
  split_and!; [done | by eapply grows_trans | done].
Qed.

Lemma safe_def body w :
  safe body w anything → safe (def body) w anything.
Proof.
  unfold safe, def. intros (Hs & Hg & _).
  destruct (body w) as [[a | | e |] w1]; simpl in *; done.
Qed.

Lemma def_not_returned body w : (def body w).1 ≠ Returned.
Proof.
  unfold def. destruct (body w) as [[a | | e |] w1]; simpl; done.
Qed.

Lemma safe_show e w : safe (show e) w anything.
Proof.
  unfold safe. split_and!; simpl; [done | | done].
  split; simpl; [lia | exists []]. by rewrite app_nil_r.
Qed.

Lemma safe_pool_append a w :
  unreserved a → safe (pool_append a) w anything.
Proof.
  intros H. unfold safe. split_and!; simpl; [done | | done].
  split; simpl; [lia | exists [a]]. split; [done | by apply Forall_singleton].
Qed.

Lemma safe_py_index {A} (l : list A) i w : safe (py_index l i) w anything.
Proof.
  unfold py_index.
  destruct (_ && _); [destruct (l !! _) |];
    first [by apply safe_ret | apply safe_raise].
Qed.

(** A prompt never puts a line back, and it has read one when it gives a
    value. *)
Lemma prompt_loop_lines {A} text (default : option A) value_proc lines shown :
  let r := prompt_loop text default value_proc lines shown in
  r.1.1 ≠ Starved ∧ r.1.1 ≠ Returned ∧ length r.1.2 ≤ length lines ∧
  ∀ a, r.1.1 = Normal a → length r.1.2 < length lines.
Proof.
  revert shown. induction lines as [| line rest IH]; intros shown; simpl.
  - by split_and!.
  - destruct (String.eqb line ""); [destruct default as [d |] |
      destruct (value_proc line) as [msg | v]]; simpl;
      try (split_and!; [done | done | lia | intros; lia]).
    + destruct (IH (Asked text (Some line) :: shown)) as (? & ? & ? & Hn).
      split_and!; [done | done | lia |].
      intros a E. specialize (Hn a E). lia.
    + destruct (IH (Echo ("Error: " +:+ msg) :: Asked text (Some line) :: shown))
        as (? & ? & ? & Hn).
      split_and!; [done | done | lia |].
      intros a E. specialize (Hn a E). lia.
Qed.

Lemma confirm_loop_lines text lines shown :
  let r := confirm_loop text lines shown in
  r.1.1 ≠ Starved ∧ r.1.1 ≠ Returned ∧ length r.1.2 ≤ length lines ∧
  ∀ a, r.1.1 = Normal a → length r.1.2 < length lines.
Proof.
  revert shown. induction lines as [| line rest IH]; intros shown; simpl.
  - by split_and!.
  - repeat case_match; simpl;
      try (split_and!; [done | done | lia | intros; lia]).
    destruct (IH (Echo "Error: invalid input" :: Asked text (Some line) :: shown))
      as (? & ? & ? & Hn).
    split_and!; [done | done | lia |].
    intros a E. specialize (Hn a E). lia.
Qed.

Lemma click_prompt_pool {A} text (default : option A) value_proc w :
  pool (click_prompt text default value_proc w).2 = pool w.
Proof.
  unfold click_prompt. by destruct (prompt_loop _ _ _ _ _) as [[r l] s].
Qed.

Lemma safe_click_prompt {A} text (default : option A) value_proc w :
  safe (click_prompt text default value_proc) w (below (length (stdin w))).
Proof.
  pose proof (prompt_loop_lines text default value_proc (stdin w) (screen w)) as H.
  unfold safe, grows, below, click_prompt.
  destruct (prompt_loop _ _ _ _ _) as [[r l] s]; simpl in *.
  destruct H as (? & ? & ? & ?). split_and!; try done.
  exists []. by rewrite app_nil_r.
Qed.

Lemma safe_click_confirm text w :
  safe (click_confirm text) w (below (length (stdin w))).
Proof.
  pose proof (confirm_loop_lines text (stdin w) (screen w)) as H.
  unfold safe, grows, below, click_confirm.
  destruct (confirm_loop _ _ _) as [[r l] s]; simpl in *.
  destruct H as (? & ? & ? & ?). split_and!; try done.
  exists []. by rewrite app_nil_r.
Qed.

Lemma is_reserved_false name :
  is_reserved name = false → name ≠ "secrets" ∧ name ≠ "configuration".
Proof.
  unfold is_reserved. intros H. apply orb_false_elim in H as [H1 H2].
  by rewrite !String.eqb_neq in *.
Qed.

Lemma safe_elicit_argument arg arguments w :
  no_reserved arguments →
  safe (elicit_argument arg arguments) w (fun arguments' _ => no_reserved arguments').
Proof.
  intros [Hs Hc]. unfold elicit_argument.
  destruct (is_reserved (arg_name arg)) eqn:E; [by apply safe_ret |].
  apply is_reserved_false in E as [E1 E2].
  eapply safe_bind; [apply safe_click_prompt |]. intros v w1 _ _.
  apply safe_ret. split; by rewrite lookup_insert_ne.
Qed.

Lemma safe_for_each_elicit args arguments w :
  no_reserved arguments →
  safe (for_each args elicit_argument arguments) w
    (fun arguments' _ => no_reserved arguments').
Proof.
  revert arguments w. induction args as [| arg rest IH]; intros arguments w H.
  - by apply safe_ret.
  - simpl. eapply safe_bind; [by apply safe_elicit_argument |].
    intros arguments' w1 _ H'. by apply IH.
Qed.

Ltac lengths :=
  repeat match goal with
         | H : grows _ _ |- _ => apply grows_length in H
         end;
  unfold below in *; lia.

Section BodySafe.

Variable self : list (string * Activity) → bool → IO unit.
Variable n : nat.
Hypothesis self_safe :
  ∀ activities with_tolerance w,
    length (stdin w) < n → safe (self activities with_tolerance) w anything.

Lemma safe_another activities w :
  length (stdin w) ≤ n →
  safe (another <- click_confirm "Do you want to select another activity?" ;;
        (if negb another then py_return else ret tt) ;;;
        self activities false) w anything.
Proof using self_safe.
  intros Hn.
  eapply safe_bind; [apply safe_click_confirm |]. intros another w1 G1 B1.
  eapply safe_bind with (Q1 := anything).
  { destruct another; simpl; [by apply safe_ret | apply safe_return]. }
  intros _ w2 G2 _. apply self_safe. lengths.
Qed.

Lemma safe_use_selected activities with_tolerance selected w :
  length (stdin w) ≤ n →
  safe (use_selected self activities with_tolerance selected) w anything.
Proof using self_safe.
  intros Hn. unfold use_selected.
  eapply safe_bind with (Q1 := anything).
  { destruct (a_doc selected) as [d |]; [destruct (String.eqb d "") |];
      first [by apply safe_ret | apply safe_show]. }
  intros _ w1 G1 _.
  eapply safe_bind; [apply safe_click_confirm |]. intros use w2 G2 _.
  eapply safe_bind with (Q1 := anything).
  { destruct use; simpl; [by apply safe_ret |].
    apply safe_another. lengths. }
  intros _ w3 G3 _.
  eapply safe_bind with (Q1 := anything).
  { destruct with_tolerance; [| by apply safe_ret].
    eapply safe_bind; [apply safe_click_prompt |].
    intros. by apply safe_ret. }
  intros tolerance w4 G4 _.
  eapply safe_bind; [by apply safe_for_each_elicit |].
  intros arguments w5 G5 Ha.
  eapply safe_bind; [by apply safe_pool_append |].
  intros _ w6 G6 _. apply safe_another. lengths.
Qed.

Lemma safe_pick activities with_tolerance activity_index w :
  length (stdin w) ≤ n →
  safe (pick self activities with_tolerance activity_index) w anything.
Proof using self_safe.
  intros Hn. unfold pick.
  eapply safe_bind with (Q1 := anything).
  { destruct (_ =? _)%Z; [apply safe_return | by apply safe_ret]. }
  intros _ w1 G1 _.
  eapply safe_bind; [apply safe_py_index |]. intros entry w2 G2 _.
  apply safe_use_selected. lengths.
Qed.

Lemma safe_ask_and_pick activities with_tolerance w :
  length (stdin w) ≤ n →
  safe (ask_and_pick self activities with_tolerance) w anything.
Proof using self_safe.
  intros Hn. unfold ask_and_pick.
  eapply safe_bind; [apply safe_click_prompt |]. intros idx w1 G1 _.
  apply safe_pick. lengths.
Qed.

Lemma safe_add_activities_body activities with_tolerance w :
  length (stdin w) ≤ n →
  safe (add_activities_body self activities with_tolerance) w anything.
Proof using self_safe.
  intros Hn. unfold add_activities_body.
  eapply safe_bind; [apply safe_show |]. intros _ w1 G1 _.
  eapply safe_bind with (Q1 := anything).
  { destruct (_ <? _); apply safe_show. }
  intros _ w2 G2 _. apply safe_ask_and_pick. lengths.
Qed.

End BodySafe.

(** With more calls in the budget than lines to read, [add_activities]
    ends within the budget, and what it appended is free of the reserved
    names. *)
Lemma safe_add_activities_fuel fuel activities with_tolerance w :
  length (stdin w) < fuel →
  safe (add_activities_fuel fuel activities with_tolerance) w anything.
Proof.
  revert activities with_tolerance w.
  induction fuel as [| fuel IH]; intros activities with_tolerance w Hn; [lia |].
  simpl. apply safe_def.
  apply safe_add_activities_body with (n := fuel); [| lia].
  intros. by apply IH.
Qed.

Lemma safe_add_activities activities with_tolerance w :
  safe (add_activities activities with_tolerance) w anything.
Proof.
  unfold safe, add_activities.
  apply (safe_add_activities_fuel (S (length (stdin w)))). lia.
Qed.

(** ** The budget does not matter *)

Lemma bind_cong {A B} (m1 m2 : IO A) (k1 k2 : A → IO B) w Q :
  m1 w = m2 w →
  safe m1 w Q →
  (∀ a w1, grows w w1 → Q a w1 → k1 a w1 = k2 a w1) →
  bind m1 k1 w = bind m2 k2 w.
Proof.
  unfold bind, safe. intros <- (_ & Hg & Hq) Hk.
  destruct (m1 w) as [[a | | e |] w1]; simpl in *; try done.
  by apply Hk, Hq.
Qed.

Section BodyExt.

Variables self1 self2 : list (string * Activity) → bool → IO unit.
Variable n : nat.
Hypothesis self_agree :
  ∀ activities with_tolerance w,
    length (stdin w) < n →
    self1 activities with_tolerance w = self2 activities with_tolerance w.
Hypothesis self_safe :
  ∀ activities with_tolerance w,
    length (stdin w) < n → safe (self1 activities with_tolerance) w anything.

Lemma ext_another activities w :
  length (stdin w) ≤ n →
  (another <- click_confirm "Do you want to select another activity?" ;;
   (if negb another then py_return else ret tt) ;;;
   self1 activities false) w =
  (another <- click_confirm "Do you want to select another activity?" ;;
   (if negb another then py_return else ret tt) ;;;
   self2 activities false) w.
Proof using self_agree.
  intros Hn.
  eapply bind_cong; [done | apply safe_click_confirm |].
  intros another w1 G1 B1.
  eapply bind_cong with (Q := anything); [done | |].
  { destruct another; simpl; [by apply safe_ret | apply safe_return]. }
  intros _ w2 G2 _. apply self_agree. lengths.
Qed.

Lemma ext_use_selected activities with_tolerance selected w :
  length (stdin w) ≤ n →
  use_selected self1 activities with_tolerance selected w =
  use_selected self2 activities with_tolerance selected w.
Proof using self_agree self_safe.
  intros Hn. unfold use_selected.
  eapply bind_cong with (Q := anything); [done | |].
  { destruct (a_doc selected) as [d |]; [destruct (String.eqb d "") |];
      first [by apply safe_ret | apply safe_show]. }
  intros _ w1 G1 _.
  eapply bind_cong; [done | apply safe_click_confirm |].
  intros use w2 G2 _.
  eapply bind_cong with (Q := anything).
  { destruct use; simpl; [done |]. apply ext_another. lengths. }
  { destruct use; simpl; [by apply safe_ret |].
    apply safe_another with (n := n); [done | lengths]. }
  intros _ w3 G3 _.
  eapply bind_cong with (Q := anything); [done | |].
  { destruct with_tolerance; [| by apply safe_ret].
    eapply safe_bind; [apply safe_click_prompt |].
    intros. by apply safe_ret. }
  intros tolerance w4 G4 _.
  eapply bind_cong; [done | by apply safe_for_each_elicit |].
  intros arguments w5 G5 Ha.
  eapply bind_cong with (Q := anything); [done | by apply safe_pool_append |].
  intros _ w6 G6 _. apply ext_another. lengths.
Qed.

Lemma ext_add_activities_body activities with_tolerance w :
  length (stdin w) ≤ n →
  add_activities_body self1 activities with_tolerance w =
  add_activities_body self2 activities with_tolerance w.
Proof using self_agree self_safe.
  intros Hn. unfold add_activities_body, ask_and_pick, pick.
  eapply bind_cong; [done | apply safe_show |]. intros _ w1 G1 _.
  eapply bind_cong with (Q := anything); [done | |].
  { destruct (_ <? _); apply safe_show. }
  intros _ w2 G2 _.
  eapply bind_cong; [done | apply safe_click_prompt |]. intros idx w3 G3 _.
  eapply bind_cong with (Q := anything); [done | |].
  { destruct (_ =? _)%Z; [apply safe_return | by apply safe_ret]. }
  intros _ w4 G4 _.
  eapply bind_cong; [done | apply safe_py_index |]. intros entry w5 G5 _.
  apply ext_use_selected. lengths.
Qed.

End BodyExt.

Lemma add_activities_fuel_irrelevant fuel1 fuel2 activities with_tolerance w :
  length (stdin w) < fuel1 →
  length (stdin w) < fuel2 →
  add_activities_fuel fuel1 activities with_tolerance w =
  add_activities_fuel fuel2 activities with_tolerance w.
Proof.
  revert fuel2 activities with_tolerance w.
  induction fuel1 as [| fuel1 IH]; intros fuel2 activities with_tolerance w H1 H2;
    [lia |].
  destruct fuel2 as [| fuel2]; [lia |]. simpl. unfold def.
  rewrite (ext_add_activities_body (add_activities_fuel fuel1)
             (add_activities_fuel fuel2) (length (stdin w))); [done | | | done].
  - intros. apply IH; lia.
  - intros. apply safe_add_activities_fuel. lia.
Qed.

(** [add_activities] is the function its source text defines: a call runs
    the body, in which the two recursive calls are [add_activities] again. *)
Lemma add_activities_unfold activities with_tolerance w :
  add_activities activities with_tolerance w =
  def (add_activities_body add_activities activities with_tolerance) w.
Proof.
  unfold add_activities at 1. simpl. unfold def.
  rewrite (ext_add_activities_body (add_activities_fuel (length (stdin w)))
             add_activities (length (stdin w))); [done | | | done].
  - intros activities' with_tolerance' w1 H. unfold add_activities.
    apply add_activities_fuel_irrelevant; lia.
  - intros. by apply safe_add_activities_fuel.
Qed.

(** A call of [add_activities] never uses up the budget of the model and
    never ends in a pending [return]. *)
Lemma add_activities_total activities with_tolerance w :
  (add_activities activities with_tolerance w).1 ≠ Starved ∧
  (add_activities activities with_tolerance w).1 ≠ Returned.
Proof.
  split; [apply safe_add_activities |].
  rewrite add_activities_unfold. apply def_not_returned.
Qed.

(** ** The menu prompt *)

Lemma add_activities_menu activities with_tolerance lines shown p :
  add_activities activities with_tolerance (World lines shown p) =
  def (ask_and_pick add_activities activities with_tolerance)
    (World lines (menu_shown activities shown) p).
Proof.
  rewrite add_activities_unfold.
  unfold def, add_activities_body, menu_shown, bind, click_echo,
    click_echo_via_pager, show. simpl.
  by destruct (10 <? length activities).
Qed.

Lemma py_int_empty : py_int "" = None.
Proof. reflexivity. Qed.

Lemma py_literal_refused line : py_literal line = None → py_int line = None.
Proof. unfold py_int. intros ->. by destruct (_ <? _)%N. Qed.

Lemma click_prompt_int_value text line n rest shown p :
  py_int line = Some n →
  click_prompt text None INT (World (line :: rest) shown p) =
  (Normal n, World rest (Asked text (Some line) :: shown) p).
Proof.
  intros H. unfold click_prompt. simpl.
  destruct (String.eqb_spec line "") as [-> | _]; [by rewrite py_int_empty in H |].
  unfold INT. by rewrite H.
Qed.

Lemma click_prompt_int_error text line rest shown p :
  line ≠ "" →
  py_int line = None →
  click_prompt text None INT (World (line :: rest) shown p) =
  click_prompt text None INT
    (World rest
       (Echo ("Error: " +:+ line +:+ " is not a valid integer")
        :: Asked text (Some line) :: shown) p).
Proof.
  intros Hne H. unfold click_prompt. simpl.
  destruct (String.eqb_spec line "") as [-> | _]; [done |].
  unfold INT. by rewrite H.
Qed.

Lemma click_prompt_empty_line {A} text (value_proc : string → string + A)
    rest shown p :
  click_prompt text None value_proc (World ("" :: rest) shown p) =
  click_prompt text None value_proc
    (World rest (Asked text (Some "") :: shown) p).
Proof. reflexivity. Qed.

Lemma py_index_nil {A} (i : Z) : py_index (@nil A) i = raise IndexError.
Proof.
  unfold py_index. simpl. by destruct (_ && _).
Qed.

Lemma py_index_past_end {A} (l : list A) (i : Z) :
  (Z.of_nat (length l) ≤ i)%Z → py_index l i = raise IndexError.
Proof.
  intros H. unfold py_index.
  destruct (Z.ltb_spec i 0); [lia |].
  destruct (Z.ltb_spec i (Z.of_nat (length l))); [lia |].
  by rewrite andb_false_r.
Qed.

Lemma py_index_from_end {A} (l : list A) (i : Z) :
  (i < 0)%Z → (0 ≤ Z.of_nat (length l) + i)%Z →
  ∃ x, l !! Z.to_nat (Z.of_nat (length l) + i) = Some x ∧
       py_index l i = ret x.
Proof.
  intros Hneg Hin. unfold py_index.
  destruct (Z.ltb_spec i 0); [| lia].
  destruct (Z.leb_spec 0 (i + Z.of_nat (length l))); [| lia].
  destruct (Z.ltb_spec (i + Z.of_nat (length l)) (Z.of_nat (length l))); [| lia].
  simpl. replace (i + Z.of_nat (length l))%Z with (Z.of_nat (length l) + i)%Z by lia.
  destruct (l !! Z.to_nat (Z.of_nat (length l) + i)) as [x |] eqn:E; [by exists x |].
  apply lookup_ge_None in E. lia.
Qed.

(** ** The claims *)

(** C7. Whatever the operator types and whatever the candidates declare,
    every activity that a call of [add_activities] appends to the pool has
    neither [secrets] nor [configuration] among the keys of its arguments. *)
Theorem C7_reserved_names_never_stored activities with_tolerance w :
  ∃ added,
    pool (add_activities activities with_tolerance w).2 = pool w ++ added ∧
    ∀ a, a ∈ added →
      p_arguments (s_provider a) !! "secrets" = None ∧
      p_arguments (s_provider a) !! "configuration" = None.
Proof.
  destruct (safe_add_activities activities with_tolerance w)
    as (_ & (_ & added & E & F) & _).
  exists added. split; [done |].
  intros a Ha. rewrite Forall_forall in F. by apply F.
Qed.

(** C4. For a parameter that is not reserved and declares a default [d],
    the empty line stores [d] under the parameter's name: [null] when the
    declared default is [null] (the empty string shown by the prompt is
    turned back), the literal default when it is any other value. *)
Theorem C4_empty_line_stores_declared_default
    arg d arguments rest shown p :
  is_reserved (arg_name arg) = false →
  arg_default arg = Some d →
  elicit_argument arg arguments (World ("" :: rest) shown p) =
  (Normal (<[arg_name arg := d]> arguments),
   World rest
     (Asked ("Argument's value for '" +:+ arg_name arg +:+ "'") (Some "")
      :: shown) p).
Proof.
  intros Hr Hd. unfold elicit_argument, display_default, restore_null.
  rewrite Hr, Hd. by destruct d.
Qed.

Lemma C4_empty_line_stores_declared_default_witness :
  elicit_argument {| arg_name := "who"; arg_default := Some JNull |} ∅
    (World [""] [] []) =
  (Normal {[ "who" := JNull ]},
   World [] [Asked "Argument's value for 'who'" (Some "")] []).
Proof.
  apply (C4_empty_line_stores_declared_default
           {| arg_name := "who"; arg_default := Some JNull |} JNull ∅ [] [] []);
    reflexivity.
Defined.

(** C10. A line read as a negative integer [n] with
    [len(activities) + n - 1 >= 0] is not an escape and is not reported:
    the call goes on with the candidate at position
    [len(activities) + n - 1], counted from zero. *)
Theorem C10_negative_index_counts_from_end
    activities with_tolerance line n rest shown p :
  py_int line = Some n →
  (n < 0)%Z →
  (0 ≤ Z.of_nat (length activities) + n - 1)%Z →
  ∃ entry,
    activities !! Z.to_nat (Z.of_nat (length activities) + n - 1) = Some entry ∧
    add_activities activities with_tolerance (World (line :: rest) shown p) =
    def (use_selected add_activities activities with_tolerance entry.2)
      (World rest
         (Asked "Activity (0 to escape)" (Some line)
          :: menu_shown activities shown) p).
Proof.
  intros Hline Hneg Hin.
  destruct (py_index_from_end activities (n - 1)) as (entry & Hentry & Hidx);
    [lia | lia |].
  exists entry. split.
  { rewrite <- Hentry. f_equal. lia. }
  rewrite add_activities_menu. unfold def, ask_and_pick, pick, bind.
  rewrite (click_prompt_int_value _ _ _ _ _ _ Hline).
  destruct (Z.eqb_spec n 0); [lia |]. simpl. by rewrite Hidx.
Qed.

Lemma C10_negative_index_counts_from_end_witness :
  ∃ entry,
    method_candidates demo !! 0 = Some entry ∧
    add_activities (method_candidates demo) false (World ["-1"; "n"; "n"] [] []) =
    def (use_selected add_activities (method_candidates demo) false entry.2)
      (World ["n"; "n"]
         (Asked "Activity (0 to escape)" (Some "-1")
          :: menu_shown (method_candidates demo) []) []).
Proof.
  apply (C10_negative_index_counts_from_end (method_candidates demo) false
           "-1" (-1)%Z ["n"; "n"] [] []); [reflexivity | lia | simpl; lia].
Defined.

(** C8, as the code has it.  A line that the prompt reads as the integer 0
    ends the call at once: that line is the only one read and the pool is
    the one passed in.  The empty line is not a selection: the prompt is
    shown again and the call goes on with the lines that follow. *)
Theorem C8_zero_escapes_empty_line_asks_again
    activities with_tolerance line rest shown p :
  py_int line = Some 0%Z →
  add_activities activities with_tolerance (World (line :: rest) shown p) =
  (Normal tt,
   World rest
     (Asked "Activity (0 to escape)" (Some line) :: menu_shown activities shown)
     p) ∧
  add_activities activities with_tolerance (World ("" :: rest) shown p) =
  def (ask_and_pick add_activities activities with_tolerance)
    (World rest
       (Asked "Activity (0 to escape)" (Some "") :: menu_shown activities shown)
       p).
Proof.
  intros Hline. split.
  - rewrite add_activities_menu. unfold def, ask_and_pick, pick, bind.
    by rewrite (click_prompt_int_value _ _ _ _ _ _ Hline).
  - rewrite add_activities_menu. unfold def, ask_and_pick, bind.
    by rewrite click_prompt_empty_line.
Qed.

Lemma C8_zero_escapes_empty_line_asks_again_witness :
  add_activities (method_candidates demo) true (World ["0"; "1"] [] []) =
  (Normal tt,
   World ["1"]
     (Asked "Activity (0 to escape)" (Some "0")
      :: menu_shown (method_candidates demo) []) []) ∧
  add_activities (method_candidates demo) true (World [""; "1"] [] []) =
  def (ask_and_pick add_activities (method_candidates demo) true)
    (World ["1"]
       (Asked "Activity (0 to escape)" (Some "")
        :: menu_shown (method_candidates demo) []) []).
Proof.
  apply (C8_zero_escapes_empty_line_asks_again (method_candidates demo) true
           "0" ["1"] [] []).
  reflexivity.
Defined.

(** C8 as stated fails on the empty line: with the empty line typed at the
    first menu prompt the call does not end there; it reads the lines that
    follow and appends the activity picked with them. *)
Lemma C8_empty_line_counterexample :
  let w' := (add_activities [("probe-one", probe_one)] false
               (session [""; "1"; "y"; "n"])).2 in
  stdin w' = [] ∧ length (pool w') = 1 ∧ pool w' ≠ pool (session [""; "1"; "y"; "n"]).
Proof. vm_compute. by split_and!. Qed.

(** C3, as the code has it.  A line of ASCII characters that is not an
    integer literal is reported on the screen and the menu prompt is shown
    again, the call going on with the lines that follow.  A positive index
    past the end of the candidate list is not checked: the lookup raises
    [IndexError], which ends the call with the pool as it was. *)
Theorem C3_bad_selection
    activities with_tolerance line rest shown p :
  line ≠ "" →
  (ascii_text line = true →
   py_literal line = None →
   add_activities activities with_tolerance (World (line :: rest) shown p) =
   def (ask_and_pick add_activities activities with_tolerance)
     (World rest
        (Echo ("Error: " +:+ line +:+ " is not a valid integer")
         :: Asked "Activity (0 to escape)" (Some line)
         :: menu_shown activities shown) p)) ∧
  (∀ n, py_int line = Some n →
        (Z.of_nat (length activities) < n)%Z →
   add_activities activities with_tolerance (World (line :: rest) shown p) =
   (Raised IndexError,
    World rest
      (Asked "Activity (0 to escape)" (Some line) :: menu_shown activities shown)
      p)).
Proof.
  intros Hne. split.
  - intros _ Hline. apply py_literal_refused in Hline.
    rewrite add_activities_menu. unfold def, ask_and_pick, bind.
    by rewrite (click_prompt_int_error _ _ _ _ _ Hne Hline).
  - intros n Hline Hn. rewrite add_activities_menu.
    unfold def, ask_and_pick, pick, bind.
    rewrite (click_prompt_int_value _ _ _ _ _ _ Hline).
    destruct (Z.eqb_spec n 0); [lia |]. simpl.
    rewrite py_index_past_end; [done | lia].
Qed.

Lemma C3_bad_selection_witness :
  (add_activities (method_candidates demo) false (World ["x"; "0"] [] []) =
   def (ask_and_pick add_activities (method_candidates demo) false)
     (World ["0"]
        (Echo "Error: x is not a valid integer"
         :: Asked "Activity (0 to escape)" (Some "x")
         :: menu_shown (method_candidates demo) []) [])) ∧
  (add_activities (method_candidates demo) false (World ["3"; "0"] [] []) =
   (Raised IndexError,
    World ["0"]
      (Asked "Activity (0 to escape)" (Some "3")
       :: menu_shown (method_candidates demo) []) [])).
Proof.
  split.
  - apply (C3_bad_selection (method_candidates demo) false "x" ["0"] [] []);
      [done | reflexivity | reflexivity].
  - apply (proj2 (C3_bad_selection (method_candidates demo) false "3" ["0"] [] []
                    ltac:(done)) 3%Z); [reflexivity | simpl; lia].
Defined.

(** C3 as stated fails on a positive index out of range: with one
    candidate, the selection 2 ends the call with [IndexError]; nothing is
    reported and the prompt is not shown again. *)
Lemma C3_out_of_range_counterexample :
  add_activities [("probe-one", probe_one)] false (session ["2"; "1"; "y"; "n"]) =
  (Raised IndexError,
   World ["1"; "y"; "n"]
     [Asked "Activity (0 to escape)" (Some "2"); Echo "1) probe-one";
      Echo "Add an activity to your method"] []).
Proof. vm_compute. reflexivity. Qed.

(** C1 fails on the code.  The operator picks the only candidate, declines
    it, agrees to pick another, and escapes from the nested call with 0:
    no confirmation of use was given, yet the declined candidate is in the
    pool, because after the nested call of line 254 returns, the outer call
    goes on to line 256 and builds the activity it was told not to use. *)
Theorem C1_declined_activity_is_appended :
  let w' := (add_activities [("probe-one", probe_one)] false
               (session ["1"; "n"; "y"; "0"; "n"])).2 in
  accept_confirmations (screen w') = 0 ∧
  s_name <$> pool w' = ["probe-one"].
Proof. vm_compute. by split. Qed.

(** C2 fails on the code.  The call is started with [with_tolerance] true;
    the operator confirms a probe, gives its tolerance, asks for another
    and confirms the probe again: the nested call of line 300 is made
    without [with_tolerance], so the second activity has no tolerance. *)
Theorem C2_later_activity_has_no_tolerance :
  s_tolerance <$>
    pool (add_activities [("probe-one", probe_one)] true
            (session ["1"; "y"; "ok"; "y"; "1"; "y"; "n"])).2 =
  [Some "ok"; None].
Proof. vm_compute. reflexivity. Qed.

Lemma probe_loop_filter (l : list Activity) acc :
  fold_left
    (fun acc a =>
       if String.eqb (a_type a) "probe" then acc ++ [(a_name a, a)] else acc)
    l acc =
  acc ++ ((fun a => (a_name a, a)) <$> filter (fun a => kind_of a = observation) l).
Proof.
  revert acc. induction l as [| a l IH]; intros acc; simpl.
  - by rewrite app_nil_r.
  - rewrite IH. destruct (String.eqb (a_type a) "probe") eqn:E.
    + rewrite filter_cons_True by (unfold kind_of; by rewrite E).
      simpl. by rewrite <- app_assoc.
    + rewrite filter_cons_False by (unfold kind_of; by rewrite E). done.
Qed.

(** C5, as the code has it.  The candidates of the hypothesis are the
    discovery's entries of type ["probe"], in the discovery's order; the
    candidates of the method are all the entries of the discovery, of
    either kind, in the discovery's order. *)
Theorem C5_candidates discovery :
  probe_candidates discovery = extract_candidates discovery observation ∧
  method_candidates discovery =
    (fun a => (a_name a, a)) <$> activities discovery.
Proof.
  split; [| done]. unfold probe_candidates. by rewrite probe_loop_filter.
Qed.

(** C5 as stated fails for the method: its candidates are not filtered by
    kind, a probe of the discovery is among them. *)
Lemma C5_method_counterexample :
  ("probe-one", probe_one) ∈ method_candidates demo ∧
  kind_of probe_one = observation ∧
  method_candidates demo ≠ extract_candidates demo action.
Proof.
  split_and!; [apply list_elem_of_here | done | by vm_compute].
Qed.

(** ** [init] *)

Lemma bind_normal {A B} (m : IO A) (k : A → IO B) w b w' :
  bind m k w = (Normal b, w') →
  ∃ a w1, m w = (Normal a, w1) ∧ k a w1 = (Normal b, w').
Proof.
  unfold bind. destruct (m w) as [[a | | e |] w1]; try done.
  intros H. by exists a, w1.
Qed.

Lemma ret_normal {A} (a b : A) w w' :
  ret a w = (Normal b, w') → b = a ∧ w' = w.
Proof. by intros [= <- <-]. Qed.

(** With no candidate at all, a call cannot append: the escape returns
    and every other selection raises at the lookup. *)
Lemma add_activities_nil_pool with_tolerance w :
  pool (add_activities [] with_tolerance w).2 = pool w.
Proof.
  destruct w as [lines shown p]. rewrite add_activities_menu.
  unfold def, ask_and_pick, bind.
  pose proof (click_prompt_pool "Activity (0 to escape)" None INT
                (World lines (menu_shown [] shown) p)) as Hp.
  destruct (click_prompt _ _ _ _) as [[idx | | e |] w1]; simpl in *; try done.
  unfold pick, bind. destruct (_ =? _)%Z; simpl; [done |].
  by rewrite py_index_nil.
Qed.

(** The block that fills one section of the experiment (lines 184 to 189
    and lines 194 to 196), run on an empty list of candidates. *)
Lemma section_of_nothing with_tolerance w r w' :
  (pool_new ;;;
   add_activities [] with_tolerance ;;;
   filled <- pool_get ;;
   ret (Some filled)) w = (Normal r, w') →
  r = Some [].
Proof.
  intros H.
  apply bind_normal in H as ([] & w1 & H1 & H).
  apply bind_normal in H as ([] & w2 & H2 & H).
  apply bind_normal in H as (filled & w3 & H3 & H).
  apply ret_normal in H as [-> _].
  injection H1 as <-. injection H3 as <- <-.
  pose proof (add_activities_nil_pool with_tolerance
                (World (stdin w) (screen w) [])) as Hp.
  rewrite H2 in Hp. simpl in Hp. by rewrite Hp.
Qed.

(** C9. When the discovery's list of activities is empty, the experiment
    [init] returns has an empty method, and its hypothesis, when the
    operator defined one, has an empty list of probes. *)
Theorem C9_empty_discovery discovery w e w' :
  activities discovery = [] →
  init (Some discovery) w = (Normal e, w') →
  e_method e = Some [] ∧
  ∀ h, e_hypothesis e = Some h → h_probes h = Some [].
Proof.
  destruct discovery as [l]. simpl. intros -> H. unfold init in H.
  change (method_candidates {| activities := [] |}) with
    (@nil (string * Activity)) in H.
  change (probe_candidates {| activities := [] |}) with
    (@nil (string * Activity)) in H.
  apply bind_normal in H as (title & w1 & _ & H).
  apply bind_normal in H as (define & w2 & _ & H).
  apply bind_normal in H as (hypothesis & w3 & Hh & H).
  apply bind_normal in H as (method & w4 & Hm & H).
  apply ret_normal in H as [-> _]. simpl. split.
  - by apply section_of_nothing in Hm.
  - intros h ->. destruct define; [| by apply ret_normal in Hh as [? _]].
    apply bind_normal in Hh as (hypo_title & w5 & _ & Hh).
    apply bind_normal in Hh as (probes & w6 & Hp & Hh).
    apply ret_normal in Hh as [[= ->] _]. simpl.
    by apply section_of_nothing in Hp.
Qed.

Lemma C9_empty_discovery_witness :
  ∃ e w',
    init (Some {| activities := [] |}) (session ["t"; "y"; "h"; "0"; "0"]) =
    (Normal e, w') ∧
    e_method e = Some [] ∧
    ∀ h, e_hypothesis e = Some h → h_probes h = Some [].
Proof.
  eexists _, _. split; [vm_compute; reflexivity |].
  eapply (C9_empty_discovery {| activities := [] |}
            (session ["t"; "y"; "h"; "0"; "0"]));
    [reflexivity | vm_compute; reflexivity].
Defined.

(** C6, as the code has it.  When there is no discovery, the experiment
    [init] returns has no method entry at all (the key is not set), and its
    hypothesis, when the operator defined one, has a title and no probes
    entry. *)
Theorem C6_no_discovery w e w' :
  init None w = (Normal e, w') →
  e_method e = None ∧
  ∀ h, e_hypothesis e = Some h → h_probes h = None.
Proof.
  intros H. unfold init in H.
  apply bind_normal in H as (title & w1 & _ & H).
  apply bind_normal in H as (define & w2 & _ & H).
  apply bind_normal in H as (hypothesis & w3 & Hh & H).
  apply bind_normal in H as (method & w4 & Hm & H).
  apply ret_normal in H as [-> _]. simpl. split.
  - by apply ret_normal in Hm as [-> _].
  - intros h ->. destruct define; [| by apply ret_normal in Hh as [? _]].
    apply bind_normal in Hh as (hypo_title & w5 & _ & Hh).
    apply bind_normal in Hh as (probes & w6 & Hp & Hh).
    apply ret_normal in Hh as [[= ->] _]. simpl.
    by apply ret_normal in Hp as [-> _].
Qed.

Lemma C6_no_discovery_witness :
  ∃ e w',
    init None (session ["t"; "y"; "h"]) = (Normal e, w') ∧
    e_method e = None ∧
    ∀ h, e_hypothesis e = Some h → h_probes h = None.
Proof.
  eexists _, _. split; [vm_compute; reflexivity |].
  eapply (C6_no_discovery (session ["t"; "y"; "h"])).
  vm_compute. reflexivity.
Defined.

(** C6 as stated fails for the method: without a discovery the returned
    experiment has no method entry, which is not an empty sequence. *)
Lemma C6_method_counterexample :
  ∃ e w',
    init None (session ["t"; "n"]) = (Normal e, w') ∧
    e_method e = None ∧ e_method e ≠ Some [].
Proof. eexists _, _. split; [vm_compute; reflexivity | by split]. Qed.

(** ** The scenarios of the spec, run *)

(** [int] on some lines: blanks around, a sign, underscores between
    digits; and what it refuses, among it a leading separator U+001D and a
    literal of more digits than the limit. *)
Example py_int_samples :
  py_int "0" = Some 0%Z ∧ py_int " -12 " = Some (-12)%Z ∧
  py_int "1_000" = Some 1000%Z ∧ py_int "+7" = Some 7%Z ∧
  py_int "00" = Some 0%Z ∧
  py_int (String (ascii_of_nat 160) "5") = Some 5%Z ∧
  py_int "" = None ∧ py_int "-" = None ∧ py_int "one" = None ∧
  py_int "1__0" = None ∧ py_int "+ 1" = None ∧
  py_int (String (ascii_of_nat 29) "1") = None ∧
  py_int (String (ascii_of_nat 217) (String (ascii_of_nat 161) "")) = None ∧
  py_int (String.concat "" (replicate 4300 "1")) ≠ None ∧
  py_int (String.concat "" (replicate 4301 "1")) = None.
Proof. vm_compute. by split_and!. Qed.

(** Scenario A: one probe without parameters, selected, confirmed, no
    further selection. *)
Example scenario_A :
  ∃ e w',
    init (Some {| activities := [probe_one] |})
      (session ["title"; "y"; "steady"; "1"; "y"; "200"; "n"; "0"]) =
    (Normal e, w') ∧
    e_hypothesis e =
      Some {| h_title := "steady";
              h_probes :=
                Some [ {| s_type := "probe"; s_name := "probe-one";
                          s_tolerance := Some "200";
                          s_provider :=
                            {| p_type := "python";
                               p_module := "chaosdemo.probes";
                               p_func := "probe-one";
                               p_arguments := ∅ |} |} ] |} ∧
    e_method e = Some [].
Proof. eexists _, _. vm_compute. by split_and!. Qed.

(** Scenario B: the default 30 of [timeout] taken with the empty line; the
    reserved [secrets] is not asked for; the [null] default of [target]
    taken with the empty line is stored as [null]. *)
Example scenario_B :
  ∃ a,
    pool (add_activities (method_candidates demo) false
            (session ["2"; "y"; ""; ""; "n"])).2 = [a] ∧
    s_name a = "kill" ∧
    p_arguments (s_provider a) = {[ "timeout" := JInt 30; "target" := JNull ]}.
Proof. eexists. vm_compute. by split_and!. Qed.

(** Scenario C: selected, declined, no other selection. *)
Example scenario_C :
  add_activities (method_candidates demo) false (session ["1"; "n"; "n"]) =
  (Normal tt,
   World []
     [Asked "Do you want to select another activity?" (Some "n");
      Asked "Do you want to use this probe?" (Some "n");
      Asked "Activity (0 to escape)" (Some "1");
      Echo ("1) probe-one" +:+ newline +:+ "2) kill");
      Echo "Add an activity to your method"] []).
Proof. vm_compute. reflexivity. Qed.

(** * Further properties *)

#[local] Set Warnings "-clear-no-such-hyp".

(** ** What every step keeps, for any property of the appended activities *)

Lemma grows_by_refl P w : grows_by P w w.
Proof. split; [lia | exists []]. by rewrite app_nil_r. Qed.

Lemma grows_by_trans P w1 w2 w3 :
  grows_by P w1 w2 → grows_by P w2 w3 → grows_by P w1 w3.
Proof.
  intros [H1 (a1 & E1 & F1)] [H2 (a2 & E2 & F2)]. split; [lia |].
  exists (a1 ++ a2). rewrite E2, E1, app_assoc. split; [done |].
  by apply Forall_app.
Qed.

Lemma grows_by_length P w w' :
  grows_by P w w' → length (stdin w') ≤ length (stdin w).
Proof. by intros [H _]. Qed.

Lemma grows_by_mono (P P' : SelectedActivity → Prop) w w' :
  (∀ a, P a → P' a) → grows_by P w w' → grows_by P' w w'.
Proof.
  intros HP [H (added & E & F)]. split; [done |]. exists added.
  split; [done |]. eapply Forall_impl; eauto.
Qed.

Lemma tracked_ret P E {A} (a : A) w (Q : A → world → Prop) :
  Q a w → tracked P E (ret a) w Q.
Proof.
  intros H. unfold tracked. split_and!; simpl;
    [done | apply grows_by_refl | done | done |].
  intros a' [= <-]. done.
Qed.

Lemma tracked_return P E {A} w (Q : A → world → Prop) :
  tracked P E py_return w Q.
Proof.
  unfold tracked. split_and!; simpl;
    [done | apply grows_by_refl | done | done | done].
Qed.

Lemma tracked_index_error P (E : world → Prop) {A} w (Q : A → world → Prop) :
  E w → tracked P E (raise IndexError) w Q.
Proof.
  intros H. unfold tracked. split_and!; simpl;
    [done | apply grows_by_refl | done | done | done].
Qed.

Lemma tracked_bind P E {A B} (m : IO A) (k : A → IO B) w Q1
    (Q2 : B → world → Prop) :
  tracked P E m w Q1 →
  (∀ a w1, grows_by P w w1 → Q1 a w1 → tracked P E (k a) w1 Q2) →
  tracked P E (bind m k) w Q2.
Proof.
  unfold tracked, bind. intros (Hs & Hg & Ha & He & Hq) Hk.
  destruct (m w) as [[a | | e |] w1]; simpl in *.
  - destruct (Hk a w1 Hg (Hq a eq_refl)) as (Hs' & Hg' & Ha' & He' & Hq').
    split_and!; [done | by eapply grows_by_trans | done | done | done].
  - by split_and!.
  - split_and!; [done | done | intros [= ->]; by apply Ha
                 | intros [= ->]; by apply He | done].
  - done.
Qed.

Lemma tracked_mono (P P' : SelectedActivity → Prop) E {A} (m : IO A) w
    (Q Q' : A → world → Prop) :
  (∀ a, P a → P' a) →
  (∀ a w', Q a w' → Q' a w') →
  tracked P E m w Q → tracked P' E m w Q'.
Proof.
  intros HP HQ (Hs & Hg & Ha & He & Hq). unfold tracked.
  split_and!; [done | by eapply grows_by_mono | done | done |].
  intros a H. by apply HQ, Hq.
Qed.

Lemma tracked_ext P E {A} (m m' : IO A) w (Q : A → world → Prop) :
  m w = m' w → tracked P E m' w Q → tracked P E m w Q.
Proof. unfold tracked. by intros ->. Qed.

Lemma tracked_def P E body w :
  tracked P E body w anything → tracked P E (def body) w anything.
Proof.
  unfold tracked, def. intros (Hs & Hg & Ha & He & _).
  destruct (body w) as [[a | | e |] w1]; simpl in *;
    split_and!; auto; done.
Qed.

Lemma tracked_show P E e w :
  tracked P E (show e) w (fun _ w' => stdin w' = stdin w).
Proof.
  unfold tracked. split_and!; simpl; [done | | done | done | by intros [] _].
  split; simpl; [lia | exists []]. by rewrite app_nil_r.
Qed.

Lemma tracked_pool_append (P : SelectedActivity → Prop) E a w :
  P a → tracked P E (pool_append a) w anything.
Proof.
  intros H. unfold tracked. split_and!; simpl; [done | | done | done | done].
  split; simpl; [lia | exists [a]]. split; [done | by apply Forall_singleton].
Qed.

(** An index is in the range of a list when it is the position of an
    element, counted from the start or from the end. *)
Lemma py_index_outside {A} (l : list A) (i : Z) :
  (i < - Z.of_nat (length l) ∨ Z.of_nat (length l) ≤ i)%Z →
  py_index l i = raise IndexError.
Proof.
  intros H. unfold py_index.
  destruct (Z.ltb_spec i 0).
  - destruct (Z.leb_spec 0 (i + Z.of_nat (length l))); [lia | done].
  - destruct (Z.ltb_spec i (Z.of_nat (length l))); [lia |].
    by rewrite andb_false_r.
Qed.

Lemma py_index_inside {A} (l : list A) (i : Z) :
  (- Z.of_nat (length l) ≤ i < Z.of_nat (length l))%Z →
  ∃ x, x ∈ l ∧ py_index l i = ret x.
Proof.
  intros H. unfold py_index.
  set (j := if (i <? 0)%Z then (i + Z.of_nat (length l))%Z else i).
  assert (0 ≤ j < Z.of_nat (length l))%Z as Hj.
  { unfold j. destruct (Z.ltb_spec i 0); lia. }
  destruct (Z.leb_spec 0 j); [| lia].
  destruct (Z.ltb_spec j (Z.of_nat (length l))); [| lia]. simpl.
  destruct (l !! Z.to_nat j) as [x |] eqn:E.
  - exists x. split; [by eapply list_elem_of_lookup_2 | done].
  - apply lookup_ge_None in E. lia.
Qed.

Lemma tracked_py_index P (E : world → Prop) {A} (l : list A) i w :
  ((i < - Z.of_nat (length l) ∨ Z.of_nat (length l) ≤ i)%Z → E w) →
  tracked P E (py_index l i) w (fun x w' => x ∈ l ∧ w' = w).
Proof.
  intros H.
  destruct (decide (- Z.of_nat (length l) ≤ i < Z.of_nat (length l))%Z) as [Hi | Hi].
  - destruct (py_index_inside l i Hi) as (x & Hx & ->). by apply tracked_ret.
  - assert (i < - Z.of_nat (length l) ∨ Z.of_nat (length l) ≤ i)%Z as Ho by lia.
    rewrite (py_index_outside l i Ho). apply tracked_index_error. by apply H.
Qed.

(** A prompt raises nothing but [Abort], and that with no line left; the
    value it gives is the default or the conversion of a typed line, which
    is then the last thing on the screen. *)
Lemma prompt_loop_answer {A} text (default : option A) value_proc lines shown :
  let r := prompt_loop text default value_proc lines shown in
  (∀ e, r.1.1 = Raised e → e = Abort ∧ r.1.2 = []) ∧
  ∀ a, r.1.1 = Normal a →
       answered default value_proc a ∧
       (default = None →
        ∃ line shown', r.2 = Asked text (Some line) :: shown' ∧
                       value_proc line = inr a).
Proof.
  revert shown. induction lines as [| line rest IH]; intros shown; simpl.
  - split; [by intros e [= <-] | done].
  - destruct (String.eqb_spec line "") as [-> | Hne].
    + destruct default as [d |]; simpl; [| apply IH].
      split; [done |]. intros a [= <-]. split; [by left | done].
    + destruct (value_proc line) as [msg | v] eqn:E; simpl; [apply IH |].
      split; [done |]. intros a [= <-]. split; [right; by exists line |].
      intros _. by exists line, shown.
Qed.

Lemma confirm_loop_abort text lines shown :
  let r := confirm_loop text lines shown in
  ∀ e, r.1.1 = Raised e → e = Abort ∧ r.1.2 = [].
Proof.
  revert shown. induction lines as [| line rest IH]; intros shown; simpl.
  - by intros e [= <-].
  - repeat case_match; simpl; try done. apply IH.
Qed.

Lemma tracked_click_prompt P E {A} text (default : option A) value_proc w :
  tracked P E (click_prompt text default value_proc) w
    (fun a w' =>
       length (stdin w') < length (stdin w) ∧
       answered default value_proc a ∧
       (default = None →
        ∃ line shown', screen w' = Asked text (Some line) :: shown' ∧
                       value_proc line = inr a)).
Proof.
  pose proof (prompt_loop_lines text default value_proc (stdin w) (screen w)) as H.
  pose proof (prompt_loop_answer text default value_proc (stdin w) (screen w)) as H'.
  unfold tracked, grows_by, click_prompt.
  destruct (prompt_loop _ _ _ _ _) as [[r l] s]; simpl in *.
  destruct H as (? & ? & ? & ?), H' as [Ha Hv].
  split_and!; [done | done | | | |].
  - exists []. by rewrite app_nil_r.
  - intros H'. by apply Ha in H' as [_ ->].
  - intros H'. by apply Ha in H' as [[=] _].
  - intros a H'. destruct (Hv a H'). split_and!; eauto.
Qed.

Lemma tracked_click_confirm P E text w :
  tracked P E (click_confirm text) w
    (fun _ w' => length (stdin w') < length (stdin w)).
Proof.
  pose proof (confirm_loop_lines text (stdin w) (screen w)) as H.
  pose proof (confirm_loop_abort text (stdin w) (screen w)) as Ha.
  unfold tracked, grows_by, click_confirm.
  destruct (confirm_loop _ _ _) as [[r l] s]; simpl in *.
  destruct H as (? & ? & ? & ?).
  split_and!; [done | done | | | |].
  - exists []. by rewrite app_nil_r.
  - intros H'. by apply Ha in H' as [_ ->].
  - intros H'. by apply Ha in H' as [[=] _].
  - eauto.
Qed.

(** ** The loop over the arguments *)

Lemma asked_names_nil : asked_names [] = ∅.
Proof. done. Qed.

Lemma asked_names_snoc declared arg :
  asked_names (declared ++ [arg]) =
  if is_reserved (arg_name arg) then asked_names declared
  else asked_names declared ∪ {[ arg_name arg ]}.
Proof.
  unfold asked_names. rewrite filter_app, fmap_app, list_to_set_app_L.
  destruct (is_reserved (arg_name arg)) eqn:E.
  - rewrite filter_cons_False by (by rewrite E). simpl. set_solver.
  - rewrite filter_cons_True by done. simpl. set_solver.
Qed.

Lemma stored_restore_null arg v :
  answered (display_default arg) (convert_type (display_default arg)) v →
  stored_for arg (restore_null arg v).
Proof.
  unfold answered, stored_for, display_default, restore_null.
  destruct (arg_default arg) as [d |] eqn:Ed.
  - destruct d; intros [[= <-] | (line & Hne & E)]; simpl in *;
      try (by left); try (right; by exists line).
    right. exists line. injection E as <-.
    by destruct (String.eqb_spec line "").
  - intros [[=] | (line & Hne & E)]. right. by exists line.
Qed.

Lemma elicited_nil : elicited [] ∅.
Proof.
  split; [by rewrite dom_empty_L |]. intros k v H.
  by rewrite lookup_empty in H.
Qed.

Lemma elicited_skip declared arg arguments :
  is_reserved (arg_name arg) = true →
  elicited declared arguments → elicited (declared ++ [arg]) arguments.
Proof.
  intros Hr [Hd Hv]. split.
  - by rewrite asked_names_snoc, Hr.
  - intros k v H. destruct (Hv k v H) as (arg' & ? & ? & ?).
    exists arg'. split_and!; [set_solver | done | done].
Qed.

Lemma elicited_store declared arg arguments v :
  is_reserved (arg_name arg) = false →
  stored_for arg v →
  elicited declared arguments →
  elicited (declared ++ [arg]) (<[arg_name arg := v]> arguments).
Proof.
  intros Hr Hs [Hd Hv]. split.
  - rewrite asked_names_snoc, Hr, dom_insert_L, Hd. set_solver.
  - intros k v' H. destruct (decide (arg_name arg = k)) as [<- | Hne].
    + rewrite lookup_insert_eq in H. injection H as <-.
      exists arg. split_and!; [set_solver | done | done].
    + rewrite lookup_insert_ne in H by done.
      destruct (Hv k v' H) as (arg' & ? & ? & ?).
      exists arg'. split_and!; [set_solver | done | done].
Qed.

Lemma tracked_elicit_argument P E declared arg arguments w :
  elicited declared arguments →
  tracked P E (elicit_argument arg arguments) w
    (fun arguments' _ => elicited (declared ++ [arg]) arguments').
Proof.
  intros H. unfold elicit_argument.
  destruct (is_reserved (arg_name arg)) eqn:Hr.
  - apply tracked_ret. by apply elicited_skip.
  - eapply tracked_bind; [apply tracked_click_prompt |].
    intros v w1 _ (_ & Hv & _). apply tracked_ret.
    apply elicited_store; [done | by apply stored_restore_null | done].
Qed.

Lemma tracked_for_each_elicit P E declared args arguments w :
  elicited declared arguments →
  tracked P E (for_each args elicit_argument arguments) w
    (fun arguments' _ => elicited (declared ++ args) arguments').
Proof.
  revert declared arguments w.
  induction args as [| arg rest IH]; intros declared arguments w H.
  - apply tracked_ret. by rewrite app_nil_r.
  - simpl. eapply tracked_bind; [by apply tracked_elicit_argument |].
    intros arguments' w1 _ H'.
    replace (declared ++ arg :: rest) with ((declared ++ [arg]) ++ rest)
      by (by rewrite <- app_assoc).
    by apply IH.
Qed.

(** ** The selection loop *)

Lemma built_from_mono activities with_tolerance a :
  built_from activities false a → built_from activities with_tolerance a.
Proof.
  intros (entry & ? & ? & ? & ? & ? & ? & ? & Ht).
  exists entry. split_and!; try done.
  intros t Hs. by destruct (Ht t Hs).
Qed.

Ltac tracked_lengths :=
  repeat match goal with
         | H : grows_by _ _ _ |- _ => apply grows_by_length in H
         end;
  lia.

Section BodyTracked.

Variable self : list (string * Activity) → bool → IO unit.
Variable activities : list (string * Activity).
Variable n : nat.
Hypothesis self_tracked :
  ∀ w, length (stdin w) < n →
       tracked (built_from activities false) (fun _ => True)
         (self activities false) w anything.

Lemma tracked_another with_tolerance w :
  length (stdin w) ≤ n →
  tracked (built_from activities with_tolerance) (fun _ => True)
    (another <- click_confirm "Do you want to select another activity?" ;;
     (if negb another then py_return else ret tt) ;;;
     self activities false) w anything.
Proof using self_tracked.
  intros Hn.
  eapply tracked_bind; [apply tracked_click_confirm |]. intros another w1 G1 B1.
  eapply tracked_bind with (Q1 := anything).
  { destruct another; simpl; [by apply tracked_ret | apply tracked_return]. }
  intros _ w2 G2 _.
  eapply tracked_mono; [apply built_from_mono | done |].
  apply self_tracked. simpl in B1. tracked_lengths.
Qed.

Lemma tracked_use_selected with_tolerance entry w :
  entry ∈ activities →
  length (stdin w) ≤ n →
  tracked (built_from activities with_tolerance) (fun _ => True)
    (use_selected self activities with_tolerance entry.2) w anything.
Proof using self_tracked.
  intros Hin Hn. unfold use_selected.
  eapply tracked_bind with (Q1 := anything).
  { destruct (a_doc entry.2) as [d |]; [destruct (String.eqb d "") |];
      first [by apply tracked_ret
            | eapply tracked_mono; [done | | apply tracked_show]; done]. }
  intros _ w1 G1 _.
  eapply tracked_bind; [apply tracked_click_confirm |]. intros use w2 G2 _.
  eapply tracked_bind with (Q1 := anything).
  { destruct use; simpl; [by apply tracked_ret |].
    apply tracked_another. tracked_lengths. }
  intros _ w3 G3 _.
  eapply tracked_bind with
    (Q1 := fun tolerance _ =>
             ∀ t, tolerance = Some t → with_tolerance = true ∧ t ≠ "").
  { destruct with_tolerance; [| by apply tracked_ret].
    eapply tracked_bind; [apply tracked_click_prompt |].
    intros t w4 _ (_ & [[=] | (line & Hne & [= <-])] & _).
    apply tracked_ret. by intros t' [= <-]. }
  intros tolerance w4 G4 Ht.
  eapply tracked_bind; [apply (tracked_for_each_elicit _ _ []), elicited_nil |].
  intros arguments w5 G5 Ha.
  eapply tracked_bind.
  { apply tracked_pool_append. exists entry. by split_and!. }
  intros _ w6 G6 _. apply tracked_another. tracked_lengths.
Qed.

Lemma tracked_add_activities_body with_tolerance w :
  length (stdin w) ≤ n →
  tracked (built_from activities with_tolerance) (fun _ => True)
    (add_activities_body self activities with_tolerance) w anything.
Proof using self_tracked.
  intros Hn. unfold add_activities_body, ask_and_pick, pick.
  eapply tracked_bind; [apply tracked_show |]. intros _ w1 G1 _.
  eapply tracked_bind with (Q1 := anything).
  { destruct (_ <? _); (eapply tracked_mono; [done | | apply tracked_show]; done). }
  intros _ w2 G2 _.
  eapply tracked_bind; [apply tracked_click_prompt |].
  intros idx w3 G3 _.
  eapply tracked_bind with (Q1 := anything).
  { destruct (Z.eqb_spec idx 0); [apply tracked_return | by apply tracked_ret]. }
  intros _ w4 G4 _.
  eapply tracked_bind; [by apply tracked_py_index |].
  intros entry w5 G5 [Hin ->].
  apply tracked_use_selected; [done | tracked_lengths].
Qed.

End BodyTracked.

(** Every call of [add_activities], nested calls included, appends only
    activities built from its candidates. *)
Lemma tracked_add_activities activities with_tolerance w :
  tracked (built_from activities with_tolerance) (fun _ => True)
    (add_activities activities with_tolerance) w anything.
Proof.
  remember (length (stdin w)) as n eqn:En.
  revert with_tolerance w En.
  induction n as [n IH] using lt_wf_ind. intros with_tolerance w ->.
  eapply tracked_ext; [apply add_activities_unfold |].
  apply tracked_def.
  apply tracked_add_activities_body with (n := length (stdin w)); [| lia].
  intros w1 H1. by eapply IH.
Qed.

Lemma stored_for_int arg v z :
  arg_default arg = Some (JInt z) → stored_for arg v → ∃ z', v = JInt z'.
Proof.
  intros Hd [H | (line & _ & H)].
  - rewrite Hd in H. injection H as <-. by exists z.
  - unfold display_default, convert_type in H. rewrite Hd in H.
    destruct (INT line) as [msg | z']; [done |].
    injection H as <-. by exists z'.
Qed.

Lemma stored_for_no_default arg v :
  arg_default arg = None → stored_for arg v → ∃ s, s ≠ "" ∧ v = JStr s.
Proof.
  intros Hd [H | (line & Hne & H)]; [congruence |].
  unfold display_default, convert_type in H. rewrite Hd in H.
  injection H as <-. by exists line.
Qed.

Lemma stored_for_null arg :
  stored_for arg JNull → arg_default arg = Some JNull.
Proof.
  intros [H | (line & _ & H)]; [done |].
  unfold convert_type in H.
  destruct (display_default arg) as [[] |]; try done.
  by destruct (INT line).
Qed.

(** What [tracked_add_activities] says of the pool. *)
Lemma add_activities_appends activities with_tolerance w :
  ∃ added,
    pool (add_activities activities with_tolerance w).2 = pool w ++ added ∧
    ∀ a, a ∈ added → built_from activities with_tolerance a.
Proof.
  destruct (tracked_add_activities activities with_tolerance w)
    as (_ & (_ & added & E & F) & _).
  exists added. split; [done |]. by apply Forall_forall.
Qed.

(** ** Properties of every session *)

(** Every activity a call appends, at any depth of the recursion, is made
    from one of the candidates of that call: it has the name and the type
    of the candidate, and its provider is the Python function of that name
    in the candidate's module. *)
Theorem appended_activity_is_a_candidate activities with_tolerance w :
  ∃ added,
    pool (add_activities activities with_tolerance w).2 = pool w ++ added ∧
    ∀ a, a ∈ added →
      ∃ entry, entry ∈ activities ∧
        s_name a = a_name entry.2 ∧
        s_type a = a_type entry.2 ∧
        p_type (s_provider a) = "python" ∧
        p_module (s_provider a) = a_mod entry.2 ∧
        p_func (s_provider a) = a_name entry.2.
Proof.
  destruct (add_activities_appends activities with_tolerance w)
    as (added & E & F).
  exists added. split; [done |]. intros a Ha.
  destruct (F a Ha) as (entry & ? & ? & ? & ? & ? & ? & _).
  by exists entry.
Qed.

(** A call made with [with_tolerance] false appends no activity with a
    tolerance, and a tolerance that is stored is never the empty text. *)
Theorem tolerance_only_when_asked activities with_tolerance w :
  ∃ added,
    pool (add_activities activities with_tolerance w).2 = pool w ++ added ∧
    ∀ a t, a ∈ added → s_tolerance a = Some t →
           with_tolerance = true ∧ t ≠ "".
Proof.
  destruct (add_activities_appends activities with_tolerance w)
    as (added & E & F).
  exists added. split; [done |]. intros a t Ha Ht.
  destruct (F a Ha) as (entry & _ & _ & _ & _ & _ & _ & _ & H).
  by apply H.
Qed.

(** The keys of the arguments of an appended activity are exactly the
    names its candidate declares, the two reserved names left out. *)
Theorem argument_keys_are_the_declared_names activities with_tolerance w :
  ∃ added,
    pool (add_activities activities with_tolerance w).2 = pool w ++ added ∧
    ∀ a, a ∈ added →
      ∃ entry, entry ∈ activities ∧ s_name a = a_name entry.2 ∧
        ∀ k, is_Some (p_arguments (s_provider a) !! k) ↔
             is_reserved k = false ∧
             ∃ arg, arg ∈ a_arguments entry.2 ∧ arg_name arg = k.
Proof.
  destruct (add_activities_appends activities with_tolerance w)
    as (added & E & F).
  exists added. split; [done |]. intros a Ha.
  destruct (F a Ha) as (entry & ? & _ & ? & _ & _ & _ & [Hd _] & _).
  exists entry. split_and!; [done | done |]. intros k.
  rewrite <- elem_of_dom, Hd. unfold asked_names.
  rewrite elem_of_list_to_set, list_elem_of_fmap. split.
  - intros (arg & -> & Hin). apply list_elem_of_filter in Hin as [Hr Hin].
    split; [done | by exists arg].
  - intros (Hr & arg & Hin & <-). exists arg. split; [done |].
    by apply list_elem_of_filter.
Qed.

(** A stored argument value follows the declaration of an argument of
    that name: an integer when the declared default is an integer, a text
    that is not empty when no default is declared. *)
Theorem stored_value_follows_declaration activities with_tolerance w :
  ∃ added,
    pool (add_activities activities with_tolerance w).2 = pool w ++ added ∧
    ∀ a k v, a ∈ added → p_arguments (s_provider a) !! k = Some v →
      ∃ entry arg, entry ∈ activities ∧ s_name a = a_name entry.2 ∧
        arg ∈ a_arguments entry.2 ∧ arg_name arg = k ∧
        (∀ z, arg_default arg = Some (JInt z) → ∃ z', v = JInt z') ∧
        (arg_default arg = None → ∃ s, s ≠ "" ∧ v = JStr s).
Proof.
  destruct (add_activities_appends activities with_tolerance w)
    as (added & E & F).
  exists added. split; [done |]. intros a k v Ha Hk.
  destruct (F a Ha) as (entry & ? & _ & ? & _ & _ & _ & [_ Hv] & _).
  destruct (Hv k v Hk) as (arg & ? & ? & Hs).
  exists entry, arg. split_and!; try done.
  - intros z Hz. by eapply stored_for_int.
  - intros Hn. by eapply stored_for_no_default.
Qed.

(** [null] is stored under a name only when an argument of that name is
    declared with the default [null]. *)
Theorem null_only_where_declared activities with_tolerance w :
  ∃ added,
    pool (add_activities activities with_tolerance w).2 = pool w ++ added ∧
    ∀ a k, a ∈ added → p_arguments (s_provider a) !! k = Some JNull →
      ∃ entry arg, entry ∈ activities ∧ s_name a = a_name entry.2 ∧
        arg ∈ a_arguments entry.2 ∧ arg_name arg = k ∧
        arg_default arg = Some JNull.
Proof.
  destruct (add_activities_appends activities with_tolerance w)
    as (added & E & F).
  exists added. split; [done |]. intros a k Ha Hk.
  destruct (F a Ha) as (entry & ? & _ & ? & _ & _ & _ & [_ Hv] & _).
  destruct (Hv k JNull Hk) as (arg & ? & ? & Hs).
  exists entry, arg. split_and!; try done. by apply stored_for_null.
Qed.

(** ** One selection at a time *)

Lemma bind_step {A B} (m : IO A) (k : A → IO B) w a w1 :
  m w = (Normal a, w1) → bind m k w = k a w1.
Proof. unfold bind. by intros ->. Qed.

Lemma click_confirm_yes text line rest shown p :
  says_yes line = true →
  click_confirm text (World (line :: rest) shown p) =
  (Normal true, World rest (Asked text (Some line) :: shown) p).
Proof.
  unfold says_yes, click_confirm. simpl. by intros ->.
Qed.

Lemma click_confirm_no text line rest shown p :
  says_no line = true →
  click_confirm text (World (line :: rest) shown p) =
  (Normal false, World rest (Asked text (Some line) :: shown) p).
Proof.
  unfold says_no, click_confirm. simpl.
  set (value := strip (lower line)).
  destruct (String.eqb_spec value "n") as [-> | _]; [done |].
  destruct (String.eqb_spec value "no") as [-> | _]; [done |].
  destruct (String.eqb_spec value "") as [-> | _]; done.
Qed.

Lemma py_index_at {A} (l : list A) (k : nat) x :
  l !! k = Some x → py_index l (Z.of_nat k) = ret x.
Proof.
  intros H. unfold py_index.
  pose proof (lookup_lt_Some _ _ _ H) as Hk.
  destruct (Z.ltb_spec (Z.of_nat k) 0); [lia |].
  destruct (Z.leb_spec 0 (Z.of_nat k)); [| lia].
  destruct (Z.ltb_spec (Z.of_nat k) (Z.of_nat (length l))); [| lia].
  simpl. by rewrite Nat2Z.id, H.
Qed.

Lemma selected_by_number
    activities with_tolerance k entry line rest shown p :
  activities !! k = Some entry →
  py_int line = Some (Z.of_nat (S k)) →
  add_activities activities with_tolerance (World (line :: rest) shown p) =
  def (use_selected add_activities activities with_tolerance entry.2)
    (World rest
       (Asked "Activity (0 to escape)" (Some line)
        :: menu_shown activities shown) p).
Proof.
  intros Hk Hline.
  rewrite add_activities_menu. unfold def, ask_and_pick, pick, bind.
  rewrite (click_prompt_int_value _ _ _ _ _ _ Hline).
  destruct (Z.eqb_spec (Z.of_nat (S k)) 0); [lia |]. simpl.
  replace (Z.of_nat (S k) - 1)%Z with (Z.of_nat k) by lia.
  by rewrite (py_index_at _ _ _ Hk).
Qed.

(** The number shown in front of a candidate is the number that selects
    it: the line of the menu for the candidate at position [k] starts with
    [k + 1], and a line read as [k + 1] makes the call go on with that
    candidate. *)
Theorem menu_number_selects_its_candidate
    activities with_tolerance k entry line rest shown p :
  activities !! k = Some entry →
  py_int line = Some (Z.of_nat (S k)) →
  menu activities = join newline (menu_lines activities) ∧
  menu_lines activities !! k = Some (pretty (S k) +:+ ") " +:+ entry.1) ∧
  add_activities activities with_tolerance (World (line :: rest) shown p) =
  def (use_selected add_activities activities with_tolerance entry.2)
    (World rest
       (Asked "Activity (0 to escape)" (Some line)
        :: menu_shown activities shown) p).
Proof.
  intros Hk Hline. split_and!; [done | |].
  - unfold menu_lines. rewrite list_lookup_imap, Hk. simpl.
    destruct entry as [name a]. simpl. by rewrite Nat.add_1_r.
  - by apply (selected_by_number _ _ k).
Qed.

Lemma menu_number_selects_its_candidate_witness :
  menu (method_candidates demo) = join newline (menu_lines (method_candidates demo)) ∧
  menu_lines (method_candidates demo) !! 1 = Some "2) kill" ∧
  add_activities (method_candidates demo) false (World ["2"; "n"] [] []) =
  def (use_selected add_activities (method_candidates demo) false kill_action)
    (World ["n"]
       (Asked "Activity (0 to escape)" (Some "2")
        :: menu_shown (method_candidates demo) []) []).
Proof.
  apply (menu_number_selects_its_candidate (method_candidates demo) false 1
           ("kill", kill_action) "2" ["n"] [] []); reflexivity.
Defined.

(** A negative selection that reaches before the first candidate raises
    [IndexError] like one past the last: the call ends there, the pool as
    it was. *)
Theorem negative_selection_out_of_range
    activities with_tolerance line n rest shown p :
  py_int line = Some n →
  (n < 0)%Z →
  (Z.of_nat (length activities) + n - 1 < 0)%Z →
  add_activities activities with_tolerance (World (line :: rest) shown p) =
  (Raised IndexError,
   World rest
     (Asked "Activity (0 to escape)" (Some line) :: menu_shown activities shown)
     p).
Proof.
  intros Hline Hneg Hout. rewrite add_activities_menu.
  unfold def, ask_and_pick, pick, bind.
  rewrite (click_prompt_int_value _ _ _ _ _ _ Hline).
  destruct (Z.eqb_spec n 0); [lia |]. simpl.
  rewrite py_index_outside; [done | lia].
Qed.

Lemma negative_selection_out_of_range_witness :
  add_activities (method_candidates demo) true (World ["-2"; "y"] [] [probe_one_selected]) =
  (Raised IndexError,
   World ["y"]
     (Asked "Activity (0 to escape)" (Some "-2")
      :: menu_shown (method_candidates demo) []) [probe_one_selected]).
Proof.
  apply (negative_selection_out_of_range (method_candidates demo) true
           "-2" (-2)%Z ["y"] [] [probe_one_selected]);
    [reflexivity | lia | simpl; lia].
Defined.

Lemma click_prompt_text {A} text (default : option A) value_proc line v
    rest shown p :
  line ≠ "" →
  value_proc line = inr v →
  click_prompt text default value_proc (World (line :: rest) shown p) =
  (Normal v, World rest (Asked text (Some line) :: shown) p).
Proof.
  intros Hne Hv. unfold click_prompt. simpl.
  destruct (String.eqb_spec line ""); [done |]. by rewrite Hv.
Qed.

Lemma show_doc activities line selected lines shown p :
  match a_doc selected with
  | Some selected_doc =>
      if String.eqb selected_doc "" then ret tt else click_echo selected_doc
  | None => ret tt
  end
    (World lines
       (Asked "Activity (0 to escape)" (Some line)
        :: menu_shown activities shown) p) =
  (Normal tt, World lines (picked_shown activities line selected shown) p).
Proof.
  unfold picked_shown.
  destruct (a_doc selected) as [d |]; [destruct (String.eqb d "") |]; done.
Qed.

Lemma for_each_reserved args arguments w :
  Forall (fun arg => is_reserved (arg_name arg) = true) args →
  for_each args elicit_argument arguments w = (Normal arguments, w).
Proof.
  induction 1 as [| arg rest Hr _ IH]; [done |].
  simpl. unfold bind, elicit_argument at 1. by rewrite Hr.
Qed.

Tactic Notation "run_step" uconstr(lem) :=
  unfold bind at 1; rewrite lem; cbv beta iota.

(** Picking a candidate, declining to use it and declining to select
    another ends the call with the pool as it was; three lines are read,
    the empty line counting as a no. *)
Theorem declined_selection_leaves_pool
    activities with_tolerance k entry l1 l2 l3 rest shown p :
  activities !! k = Some entry →
  py_int l1 = Some (Z.of_nat (S k)) →
  says_no l2 = true →
  says_no l3 = true →
  add_activities activities with_tolerance
    (World (l1 :: l2 :: l3 :: rest) shown p) =
  (Normal tt,
   World rest
     (Asked "Do you want to select another activity?" (Some l3)
      :: Asked ("Do you want to use this " +:+ a_type entry.2 +:+ "?") (Some l2)
      :: picked_shown activities l1 entry.2 shown) p).
Proof.
  intros Hk H1 H2 H3.
  rewrite (selected_by_number activities with_tolerance
             k entry l1 (l2 :: l3 :: rest) shown p Hk H1).
  unfold def, use_selected.
  run_step show_doc.
  run_step (click_confirm_no _ _ _ _ _ H2). simpl.
  unfold bind at 1.
  run_step (click_confirm_no _ _ _ _ _ H3). simpl.
  done.
Qed.

Lemma declined_selection_leaves_pool_witness :
  add_activities (method_candidates demo) true
    (World ["2"; "N"; ""; "1"] [] [probe_one_selected]) =
  (Normal tt,
   World ["1"]
     (Asked "Do you want to select another activity?" (Some "")
      :: Asked "Do you want to use this action?" (Some "N")
      :: picked_shown (method_candidates demo) "2" kill_action [])
     [probe_one_selected]).
Proof.
  apply (declined_selection_leaves_pool (method_candidates demo) true 1
           ("kill", kill_action) "2" "N" "" ["1"] [] [probe_one_selected]);
    reflexivity.
Defined.

(** One accepted selection appends one activity.  For a candidate that
    declares no argument to ask for: its number, a yes, the tolerance when
    the call asks for one, and a no to another selection end the call with
    that candidate's activity, with no arguments, appended to the pool. *)
Theorem accepted_selection_appends_one
    activities with_tolerance k entry l1 l2 t l3 rest shown p :
  activities !! k = Some entry →
  py_int l1 = Some (Z.of_nat (S k)) →
  says_yes l2 = true →
  Forall (fun arg => is_reserved (arg_name arg) = true) (a_arguments entry.2) →
  t ≠ "" →
  says_no l3 = true →
  add_activities activities with_tolerance
    (World (l1 :: l2 :: (if with_tolerance then [t] else []) ++ l3 :: rest)
       shown p) =
  (Normal tt,
   World rest
     (Asked "Do you want to select another activity?" (Some l3)
      :: (if with_tolerance
          then [Asked "What is the tolerance for this probe?" (Some t)]
          else [])
      ++ Asked ("Do you want to use this " +:+ a_type entry.2 +:+ "?") (Some l2)
      :: picked_shown activities l1 entry.2 shown)
     (p ++ [activity_of entry.2 (if with_tolerance then Some t else None) ∅])).
Proof.
  intros Hk H1 H2 Hargs Ht H3.
  rewrite (selected_by_number activities with_tolerance k entry l1 _ shown p Hk H1).
  unfold def, use_selected.
  run_step show_doc.
  run_step (click_confirm_yes _ _ _ _ _ H2). simpl.
  unfold bind at 1. unfold ret at 1. cbv beta iota.
  destruct with_tolerance; simpl; unfold bind at 1.
  - run_step (click_prompt_text _ _ STRING t t _ _ _ Ht eq_refl).
    unfold ret at 1. cbv beta iota.
    run_step (for_each_reserved _ _ _ Hargs).
    unfold bind at 1, pool_append at 1. cbv beta iota. simpl.
    unfold bind at 1.
    run_step (click_confirm_no _ _ _ _ _ H3). by simpl.
  - unfold ret at 1. cbv beta iota.
    run_step (for_each_reserved _ _ _ Hargs).
    unfold bind at 1, pool_append at 1. cbv beta iota. simpl.
    unfold bind at 1.
    run_step (click_confirm_no _ _ _ _ _ H3). by simpl.
Qed.

Lemma accepted_selection_appends_one_witness :
  add_activities (probe_candidates demo) true
    (World ["1"; "yes"; "200"; "no"; "1"] [] []) =
  (Normal tt,
   World ["1"]
     [Asked "Do you want to select another activity?" (Some "no");
      Asked "What is the tolerance for this probe?" (Some "200");
      Asked "Do you want to use this probe?" (Some "yes");
      Asked "Activity (0 to escape)" (Some "1");
      Echo "1) probe-one"; Echo "Add an activity to your method"]
     [activity_of probe_one (Some "200") ∅]).
Proof.
  apply (accepted_selection_appends_one (probe_candidates demo) true 0
           ("probe-one", probe_one) "1" "yes" "200" "no" ["1"] [] []);
    try reflexivity; done.
Defined.

(** Selecting does not use a candidate up.  In a call without tolerance,
    once a selection was accepted and the loop over the candidate's
    arguments has given its arguments, a yes to another selection makes
    the call go on as a new call on the same candidates, with the lines
    left and the pool with the activity appended. *)
Theorem another_selection_starts_over
    activities k entry l1 l2 lines arguments l3 rest shown shown' p :
  activities !! k = Some entry →
  py_int l1 = Some (Z.of_nat (S k)) →
  says_yes l2 = true →
  for_each (a_arguments entry.2) elicit_argument ∅
    (World lines
       (Asked ("Do you want to use this " +:+ a_type entry.2 +:+ "?") (Some l2)
        :: picked_shown activities l1 entry.2 shown) p) =
  (Normal arguments, World (l3 :: rest) shown' p) →
  says_yes l3 = true →
  add_activities activities false (World (l1 :: l2 :: lines) shown p) =
  add_activities activities false
    (World rest
       (Asked "Do you want to select another activity?" (Some l3) :: shown')
       (p ++ [activity_of entry.2 None arguments])).
Proof.
  intros Hk H1 H2 Hargs H3.
  rewrite (selected_by_number activities false k entry l1 _ shown p Hk H1).
  unfold def, use_selected.
  run_step show_doc.
  run_step (click_confirm_yes _ _ _ _ _ H2). simpl.
  unfold bind at 1. unfold ret at 1. cbv beta iota.
  unfold bind at 1. unfold ret at 1. cbv beta iota.
  run_step Hargs.
  unfold bind at 1, pool_append at 1. cbv beta iota. simpl.
  unfold bind at 1.
  run_step (click_confirm_yes _ _ _ _ _ H3). simpl.
  fold (activity_of entry.2 None arguments).
  match goal with
  | |- context [add_activities ?a ?b ?w] =>
      pose proof (add_activities_total a b w) as [_ Hr];
      destruct (add_activities a b w) as [[[] | | e |] w']; simpl in *; done
  end.
Qed.

Lemma another_selection_starts_over_witness :
  add_activities (method_candidates demo) false
    (World ["2"; "y"; "45"; ""; "y"; "0"] [] []) =
  add_activities (method_candidates demo) false
    (World ["0"]
       [Asked "Do you want to select another activity?" (Some "y");
        Asked "Argument's value for 'target'" (Some "");
        Asked "Argument's value for 'timeout'" (Some "45");
        Asked "Do you want to use this action?" (Some "y");
        Echo "Kill the process.";
        Asked "Activity (0 to escape)" (Some "2");
        Echo ("1) probe-one" +:+ newline +:+ "2) kill");
        Echo "Add an activity to your method"]
       ([] ++ [activity_of kill_action None
                 {[ "timeout" := JInt 45; "target" := JNull ]}])).
Proof.
  apply (another_selection_starts_over (method_candidates demo) 1
           ("kill", kill_action) "2" "y" ["45"; ""; "y"; "0"]
           {[ "timeout" := JInt 45; "target" := JNull ]} "y" ["0"] []);
    reflexivity.
Defined.

(** ** Asking for one argument *)

(** A parameter declared without a default cannot be left empty: the
    empty line is put on the screen and the same question is asked again
    with the lines that follow. *)
Theorem no_default_asks_again arg arguments rest shown p :
  is_reserved (arg_name arg) = false →
  arg_default arg = None →
  elicit_argument arg arguments (World ("" :: rest) shown p) =
  elicit_argument arg arguments
    (World rest
       (Asked ("Argument's value for '" +:+ arg_name arg +:+ "'") (Some "")
        :: shown) p).
Proof.
  intros Hr Hd. unfold elicit_argument, display_default.
  rewrite Hr, Hd. unfold bind. by rewrite click_prompt_empty_line.
Qed.

Lemma no_default_asks_again_witness :
  elicit_argument {| arg_name := "host"; arg_default := None |} ∅
    (World [""; "db"] [] []) =
  elicit_argument {| arg_name := "host"; arg_default := None |} ∅
    (World ["db"] [Asked "Argument's value for 'host'" (Some "")] []).
Proof.
  apply (no_default_asks_again {| arg_name := "host"; arg_default := None |}
           ∅ ["db"] [] []); reflexivity.
Defined.

(** For a parameter whose declared default is not an integer (no default,
    [null], a text, a boolean, a list, an object), a line that is not
    empty is stored as it was typed, as a text. *)
Theorem typed_text_is_stored_verbatim arg arguments line rest shown p :
  is_reserved (arg_name arg) = false →
  (∀ z, arg_default arg ≠ Some (JInt z)) →
  line ≠ "" →
  elicit_argument arg arguments (World (line :: rest) shown p) =
  (Normal (<[arg_name arg := JStr line]> arguments),
   World rest
     (Asked ("Argument's value for '" +:+ arg_name arg +:+ "'") (Some line)
      :: shown) p).
Proof.
  intros Hr Hd Hne. unfold elicit_argument. rewrite Hr. unfold bind.
  rewrite (click_prompt_text _ _ _ line (JStr line)); [| done |].
  - unfold ret, restore_null.
    destruct (arg_default arg) as [[] |]; try done.
    by destruct (String.eqb_spec line "").
  - unfold display_default, convert_type.
    destruct (arg_default arg) as [[] |] eqn:E; try done.
    by destruct (Hd z).
Qed.

Lemma typed_text_is_stored_verbatim_witness :
  elicit_argument {| arg_name := "target"; arg_default := Some JNull |} ∅
    (World ["null"] [] []) =
  (Normal {[ "target" := JStr "null" ]},
   World [] [Asked "Argument's value for 'target'" (Some "null")] []).
Proof.
  apply (typed_text_is_stored_verbatim
           {| arg_name := "target"; arg_default := Some JNull |} ∅ "null" [] [] []);
    done.
Defined.

(** For a parameter whose declared default is an integer, a line that
    [int] reads is stored as that integer, and a line of ASCII characters
    that is not an integer literal is reported and the question asked
    again. *)
Theorem integer_default_keeps_integers arg z arguments line rest shown p :
  is_reserved (arg_name arg) = false →
  arg_default arg = Some (JInt z) →
  line ≠ "" →
  (∀ n, py_int line = Some n →
     elicit_argument arg arguments (World (line :: rest) shown p) =
     (Normal (<[arg_name arg := JInt n]> arguments),
      World rest
        (Asked ("Argument's value for '" +:+ arg_name arg +:+ "'") (Some line)
         :: shown) p)) ∧
  (ascii_text line = true →
   py_literal line = None →
     elicit_argument arg arguments (World (line :: rest) shown p) =
     elicit_argument arg arguments
       (World rest
          (Echo ("Error: " +:+ line +:+ " is not a valid integer")
           :: Asked ("Argument's value for '" +:+ arg_name arg +:+ "'")
                (Some line)
           :: shown) p)).
Proof.
  intros Hr Hd Hne. unfold elicit_argument, display_default, restore_null.
  rewrite Hr, Hd. unfold bind, click_prompt. simpl.
  destruct (String.eqb_spec line "") as [| _]; [done |].
  unfold INT. split.
  - by intros n ->.
  - intros _ Hl. by rewrite (py_literal_refused _ Hl).
Qed.

Lemma integer_default_keeps_integers_witness :
  (elicit_argument {| arg_name := "timeout"; arg_default := Some (JInt 30) |} ∅
     (World ["45"] [] []) =
   (Normal {[ "timeout" := JInt 45 ]},
    World [] [Asked "Argument's value for 'timeout'" (Some "45")] [])) ∧
  (elicit_argument {| arg_name := "timeout"; arg_default := Some (JInt 30) |} ∅
     (World ["soon"; "45"] [] []) =
   elicit_argument {| arg_name := "timeout"; arg_default := Some (JInt 30) |} ∅
     (World ["45"]
        [Echo "Error: soon is not a valid integer";
         Asked "Argument's value for 'timeout'" (Some "soon")] [])).
Proof.
  split.
  - apply (integer_default_keeps_integers
             {| arg_name := "timeout"; arg_default := Some (JInt 30) |} 30%Z
             ∅ "45" [] [] []); done.
  - apply (integer_default_keeps_integers
             {| arg_name := "timeout"; arg_default := Some (JInt 30) |} 30%Z
             ∅ "soon" ["45"] [] []); done.
Defined.

(** The reserved parameters make no difference to the loop over the
    arguments: it runs as on the declared list with them taken out. *)
Theorem reserved_arguments_are_passed_over args arguments w :
  for_each args elicit_argument arguments w =
  for_each (filter (fun arg => is_reserved (arg_name arg) = false) args)
    elicit_argument arguments w.
Proof.
  revert arguments w. induction args as [| arg rest IH]; intros arguments w;
    [done |].
  destruct (is_reserved (arg_name arg)) eqn:Hr.
  - rewrite filter_cons_False by (by rewrite Hr). simpl.
    unfold bind, elicit_argument at 1. rewrite Hr. simpl. apply IH.
  - rewrite filter_cons_True by done. simpl. unfold bind.
    by destruct (elicit_argument arg arguments w) as [[m | | e |] w1].
Qed.

(** ** The candidates *)

(** Every candidate offered for the hypothesis is offered for the method
    too, in the same order, and a candidate is always shown under the name
    of its entry. *)
Theorem probes_among_method_candidates discovery :
  probe_candidates discovery `sublist_of` method_candidates discovery ∧
  (∀ entry, entry ∈ method_candidates discovery → entry.1 = a_name entry.2).
Proof.
  split.
  - unfold probe_candidates, method_candidates.
    rewrite probe_loop_filter. simpl.
    apply fmap_sublist, sublist_filter.
  - intros entry H. unfold method_candidates in H.
    apply list_elem_of_In, in_map_iff in H as (a & <- & _). done.
Qed.

(** ** [init], on every session *)

Lemma click_prompt_normal {A} text (default : option A) value_proc w a w1 :
  click_prompt text default value_proc w = (Normal a, w1) →
  answered default value_proc a.
Proof.
  intros H.
  destruct (tracked_click_prompt (fun _ => True) (fun _ => True)
              text default value_proc w) as (_ & _ & _ & _ & Hq).
  rewrite H in Hq. by destruct (Hq a eq_refl) as (_ & ? & _).
Qed.

Lemma typed_title text w title w1 :
  click_prompt text None STRING w = (Normal title, w1) → title ≠ "".
Proof.
  intros H. apply click_prompt_normal in H as [[=] | (line & Hne & [= <-])].
  done.
Qed.

(** The block that fills one section of the experiment (lines 184 to 189
    and lines 194 to 196). *)
Lemma section_built candidates with_tolerance w r w' :
  (pool_new ;;;
   add_activities candidates with_tolerance ;;;
   filled <- pool_get ;;
   ret (Some filled)) w = (Normal r, w') →
  ∃ filled, r = Some filled ∧
            ∀ a, a ∈ filled → built_from candidates with_tolerance a.
Proof.
  intros H.
  apply bind_normal in H as ([] & w1 & H1 & H).
  apply bind_normal in H as ([] & w2 & H2 & H).
  apply bind_normal in H as (filled & w3 & H3 & H).
  apply ret_normal in H as [-> _].
  injection H1 as <-. injection H3 as <- <-.
  destruct (add_activities_appends candidates with_tolerance
              (World (stdin w) (screen w) [])) as (added & E & F).
  rewrite H2 in E. simpl in E. exists added. by rewrite E.
Qed.

(** What a returned experiment is made of. *)
Lemma init_returns discovery w e w' :
  init discovery w = (Normal e, w') →
  ∃ title hypothesis method,
    e = {| e_version := "1.0.0"; e_title := title; e_description := "N/A";
           e_tags := []; e_rollbacks := [];
           e_hypothesis := hypothesis; e_method := method |} ∧
    title ≠ "" ∧
    (∀ h, hypothesis = Some h →
          h_title h ≠ "" ∧
          match discovery with
          | Some d =>
              ∃ probes, h_probes h = Some probes ∧
                ∀ a, a ∈ probes → built_from (probe_candidates d) true a
          | None => h_probes h = None
          end) ∧
    match discovery with
    | Some d =>
        ∃ filled, method = Some filled ∧
          ∀ a, a ∈ filled → built_from (method_candidates d) false a
    | None => method = None
    end.
Proof.
  intros H. unfold init in H.
  apply bind_normal in H as (title & w1 & Ht & H).
  apply bind_normal in H as (define & w2 & _ & H).
  apply bind_normal in H as (hypothesis & w3 & Hh & H).
  apply bind_normal in H as (method & w4 & Hm & H).
  apply ret_normal in H as [-> _].
  exists title, hypothesis, method. split_and!; [done | by eapply typed_title | |].
  - intros h ->. destruct define; [| by apply ret_normal in Hh as [? _]].
    apply bind_normal in Hh as (hypo_title & w5 & Hht & Hh).
    apply bind_normal in Hh as (probes & w6 & Hp & Hh).
    apply ret_normal in Hh as [[= ->] _]. simpl.
    split; [by eapply typed_title |].
    destruct discovery as [d |].
    + apply section_built in Hp as (filled & -> & F). by exists filled.
    + by apply ret_normal in Hp as [-> _].
  - destruct discovery as [d |].
    + by apply section_built in Hm.
    + by apply ret_normal in Hm as [-> _].
Qed.

Lemma probe_candidate_is_probe discovery entry :
  entry ∈ probe_candidates discovery →
  entry.2 ∈ activities discovery ∧ a_type entry.2 = "probe".
Proof.
  unfold probe_candidates. rewrite probe_loop_filter. simpl.
  intros H. apply list_elem_of_fmap in H as (a & -> & H).
  apply list_elem_of_filter in H as [Hk Hin]. split; [done |]. simpl.
  unfold kind_of in Hk. by destruct (String.eqb_spec (a_type a) "probe").
Qed.

Lemma method_candidate_is_entry discovery entry :
  entry ∈ method_candidates discovery → entry.2 ∈ activities discovery.
Proof.
  unfold method_candidates. intros H.
  by apply list_elem_of_fmap in H as (a & -> & H).
Qed.

(** With a discovery, a returned experiment always has a method entry;
    each of its activities is made from an entry of the discovery and has
    no tolerance. *)
Theorem init_method_from_discovery d w e w' :
  init (Some d) w = (Normal e, w') →
  ∃ method,
    e_method e = Some method ∧
    ∀ a, a ∈ method →
      s_tolerance a = None ∧
      ∃ act, act ∈ activities d ∧
        s_name a = a_name act ∧ s_type a = a_type act ∧
        p_module (s_provider a) = a_mod act ∧ p_func (s_provider a) = a_name act.
Proof.
  intros H. apply init_returns in H as (title & hypothesis & method & -> & _ & _ & Hm).
  destruct Hm as (filled & -> & F). exists filled. split; [done |].
  intros a Ha. destruct (F a Ha) as (entry & Hin & ? & ? & _ & ? & ? & _ & Ht).
  split.
  - destruct (s_tolerance a) as [t |]; [| done]. by destruct (Ht t eq_refl).
  - exists entry.2. split_and!; try done. by eapply method_candidate_is_entry.
Qed.

Lemma init_method_from_discovery_witness :
  ∃ e w',
    init (Some demo) (session ["t"; "n"; "2"; "y"; ""; ""; "n"]) = (Normal e, w') ∧
    ∃ method,
      e_method e = Some method ∧
      ∀ a, a ∈ method →
        s_tolerance a = None ∧
        ∃ act, act ∈ activities demo ∧
          s_name a = a_name act ∧ s_type a = a_type act ∧
          p_module (s_provider a) = a_mod act ∧
          p_func (s_provider a) = a_name act.
Proof.
  eexists _, _. split; [vm_compute; reflexivity |].
  eapply (init_method_from_discovery demo
            (session ["t"; "n"; "2"; "y"; ""; ""; "n"])).
  vm_compute. reflexivity.
Defined.

(** With a discovery, a hypothesis the operator defines always has a
    probes entry, and each activity in it has the type ["probe"] and is
    made from a probe entry of the discovery. *)
Theorem init_hypothesis_holds_probes d w e w' h :
  init (Some d) w = (Normal e, w') →
  e_hypothesis e = Some h →
  ∃ probes,
    h_probes h = Some probes ∧
    ∀ a, a ∈ probes →
      s_type a = "probe" ∧
      ∃ act, act ∈ activities d ∧ a_type act = "probe" ∧
        s_name a = a_name act ∧ p_module (s_provider a) = a_mod act.
Proof.
  intros H Hh.
  apply init_returns in H as (title & hypothesis & method & -> & _ & Hy & _).
  simpl in Hh. destruct (Hy h Hh) as (_ & probes & Hp & F).
  exists probes. split; [done |]. intros a Ha.
  destruct (F a Ha) as (entry & Hin & Hty & ? & _ & ? & _).
  apply probe_candidate_is_probe in Hin as [Hin Hprobe].
  split; [by rewrite Hty |]. by exists entry.2.
Qed.

Lemma init_hypothesis_holds_probes_witness :
  ∃ e w' h,
    init (Some demo) (session ["t"; "y"; "h"; "1"; "y"; "200"; "n"; "0"]) =
    (Normal e, w') ∧
    e_hypothesis e = Some h ∧
    ∃ probes,
      h_probes h = Some probes ∧
      ∀ a, a ∈ probes →
        s_type a = "probe" ∧
        ∃ act, act ∈ activities demo ∧ a_type act = "probe" ∧
          s_name a = a_name act ∧ p_module (s_provider a) = a_mod act.
Proof.
  eexists _, _, _. split; [vm_compute; reflexivity |].
  split; [reflexivity |].
  eapply (init_hypothesis_holds_probes demo
            (session ["t"; "y"; "h"; "1"; "y"; "200"; "n"; "0"]));
    [vm_compute; reflexivity | reflexivity].
Defined.

(** Every returned experiment has the version 1.0.0, the description N/A,
    no tags and no rollbacks; its title and the title of its hypothesis,
    when there is one, are not empty. *)
Theorem init_fixed_fields_and_titles discovery w e w' :
  init discovery w = (Normal e, w') →
  e_version e = "1.0.0" ∧ e_description e = "N/A" ∧
  e_tags e = [] ∧ e_rollbacks e = [] ∧
  e_title e ≠ "" ∧
  ∀ h, e_hypothesis e = Some h → h_title h ≠ "".
Proof.
  intros H.
  apply init_returns in H as (title & hypothesis & method & -> & Ht & Hy & _).
  simpl. split_and!; try done. intros h Hh. by destruct (Hy h Hh).
Qed.

Lemma init_fixed_fields_and_titles_witness :
  ∃ e w',
    init None (session [""; "t"; "y"; ""; "h"]) = (Normal e, w') ∧
    e_version e = "1.0.0" ∧ e_description e = "N/A" ∧
    e_tags e = [] ∧ e_rollbacks e = [] ∧
    e_title e ≠ "" ∧
    ∀ h, e_hypothesis e = Some h → h_title h ≠ "".
Proof.
  eexists _, _. split; [vm_compute; reflexivity |].
  eapply (init_fixed_fields_and_titles None (session [""; "t"; "y"; ""; "h"])).
  vm_compute. reflexivity.
Defined.

(** ** The commands *)

(** [run] leaves through [sys.exit(1)] exactly when the validation is on
    and the validator rejects the experiment that was loaded. *)
Theorem run_exits_when_rejected lib path journal_path dry no_validation s :
  (run lib path journal_path dry no_validation s).1 = Exit 1 ↔
  no_validation = false ∧
  ∃ experiment x,
    load_experiment lib (files s) (format_filename lib path) = Some experiment ∧
    ensure_experiment_is_valid lib experiment = Invalid x.
Proof.
  unfold run. simpl.
  destruct (load_experiment lib (files s) (format_filename lib path))
    as [experiment |]; simpl.
  - destruct no_validation; simpl.
    + destruct (run_experiment lib _ _) as [[] |]; simpl;
        split; try done; by intros [? _].
    + destruct (ensure_experiment_is_valid lib experiment) as [| x |] eqn:E;
        simpl.
      * destruct (run_experiment lib _ _) as [[] |]; simpl;
          split; try done; by intros (_ & ? & ? & [= <-] & ?); congruence.
      * split; [| done]. intros _. split; [done |]. by exists experiment, x.
      * split; [done |]. intros (_ & ? & ? & [= <-] & ?). congruence.
  - split; [done |]. by intros (_ & ? & ? & ? & _).
Qed.

Lemma run_exits_when_rejected_witness :
  (run sample_library "bad.json" "journal.json" false false sample_system).1 =
  Exit 1.
Proof.
  apply (run_exits_when_rejected sample_library "bad.json" "journal.json"
           false false sample_system).
  split; [reflexivity |].
  exists {[ "dry" := JBool true; "title" := JStr "broken" ]}, "no method".
  split; vm_compute; reflexivity.
Defined.

(** When [run] returns, the experiment it executed is the loaded one with
    ["dry"] set to the flag, whatever the file said, every other key as
    loaded; and the journal of that execution is at [journal_path], in the
    files as the execution left them. *)
Theorem run_executes_with_the_dry_flag
    lib path journal_path dry no_validation s :
  (run lib path journal_path dry no_validation s).1 = Done tt →
  ∃ experiment executed journal fs,
    load_experiment lib (files s) (format_filename lib path) = Some experiment ∧
    executed !! "dry" = Some (JBool dry) ∧
    (∀ k, k ≠ "dry" → executed !! k = experiment !! k) ∧
    run_experiment lib (files s) executed = Some (journal, fs) ∧
    files (run lib path journal_path dry no_validation s).2 =
      <[journal_path := dump_journal lib journal]> fs.
Proof.
  unfold run. simpl.
  destruct (load_experiment lib (files s) (format_filename lib path))
    as [experiment |]; [| done]. simpl.
  set (executed := <["dry" := JBool dry]> experiment).
  set (execute :=
    match run_experiment lib (files s) executed with
    | Some (journal, fs) =>
        (Done (),
         written journal_path (dump_journal lib journal)
           (System fs
              ((DEBUG, "Running command 'run'") :: log s)))
    | None =>
        (Uncaught None,
         System (files s) ((DEBUG, "Running command 'run'") :: log s))
    end).
  assert (execute.1 = Done tt →
    ∃ experiment' executed' journal fs,
      Some experiment = Some experiment' ∧
      executed' !! "dry" = Some (JBool dry) ∧
      (∀ k, k ≠ "dry" → executed' !! k = experiment' !! k) ∧
      run_experiment lib (files s) executed' = Some (journal, fs) ∧
      files execute.2 = <[journal_path := dump_journal lib journal]> fs)
    as Hexec.
  { unfold execute. intros H.
    destruct (run_experiment lib (files s) executed)
      as [[journal fs] |] eqn:E; [| done].
    exists experiment, executed, journal, fs. unfold executed.
    split_and!; [done | by rewrite lookup_insert_eq | | done | done].
    intros k Hk. by rewrite lookup_insert_ne. }
  destruct no_validation; simpl; [by apply Hexec |].
  destruct (ensure_experiment_is_valid lib experiment); [| done | done].
  by apply Hexec.
Qed.

Lemma run_executes_with_the_dry_flag_witness :
  ∃ experiment executed journal fs,
    load_experiment sample_library (files sample_system)
      (format_filename sample_library "good.json") = Some experiment ∧
    executed !! "dry" = Some (JBool false) ∧
    (∀ k, k ≠ "dry" → executed !! k = experiment !! k) ∧
    run_experiment sample_library (files sample_system) executed =
      Some (journal, fs) ∧
    files (run sample_library "good.json" "journal.json" false false
             sample_system).2 =
      <["journal.json" := dump_journal sample_library journal]> fs.
Proof.
  apply (run_executes_with_the_dry_flag sample_library "good.json"
           "journal.json" false false sample_system).
  vm_compute. reflexivity.
Defined.


(** What [discover] writes is what [init] reads: after [discover] has
    returned, the command [init] given the same path, not empty, runs the
    wizard on the discovery that [disco] gave, provided that reading back
    the text written for that discovery gives the discovery. *)
Theorem init_reads_what_discover_wrote
    lib package path no_system_info no_install experiment_path s w :
  path ≠ "" →
  (discover lib package path no_system_info no_install s).1 = Done tt →
  (∀ d, disco lib package (negb no_system_info) (negb no_install) = Some d →
        loads_discovery lib (dumps_discovery lib d) = Some (Some d)) →
  ∃ d,
    disco lib package (negb no_system_info) (negb no_install) = Some d ∧
    let s1 := (discover lib package path no_system_info no_install s).2 in
    let r := init_command lib path experiment_path s1 w in
    r.1.1 = ending_of (init (Some d) w).1 ∧ r.2 = (init (Some d) w).2.
Proof.
  intros Hpath Hdone Hjson. unfold discover in *. simpl in *.
  destruct (disco lib package (negb no_system_info) (negb no_install))
    as [d |]; [| done].
  exists d. split; [done |]. simpl. unfold init_command. simpl.
  destruct (String.eqb_spec path "") as [| _]; [done |]. simpl.
  rewrite lookup_insert_eq, (Hjson d eq_refl).
  by destruct (init (Some d) w) as [[e | | ex |] w'].
Qed.

Lemma init_reads_what_discover_wrote_witness :
  ∃ d,
    disco sample_library "chaosdemo" (negb false) (negb false) = Some d ∧
    let s1 := (discover sample_library "chaosdemo" "./discovery.json"
                 false false sample_system).2 in
    let r := init_command sample_library "./discovery.json" "./experiment.json"
               s1 (session ["t"; "n"; "0"]) in
    r.1.1 = ending_of (init (Some d) (session ["t"; "n"; "0"])).1 ∧
    r.2 = (init (Some d) (session ["t"; "n"; "0"])).2.
Proof.
  apply (init_reads_what_discover_wrote sample_library "chaosdemo"
           "./discovery.json" false false "./experiment.json" sample_system
           (session ["t"; "n"; "0"])); [done | reflexivity |].
  intros d [= <-]. reflexivity.
Defined.
